(** * S1MCPClient tool handlers: save/load management and log capture

    A shallow embedding of [src/tools/load_manager_tools.py] and
    [src/tools/log_tools.py].  The three handlers forward one RPC to the
    game process through a TCP client and turn the answer into text
    blocks.  Python values are an inductive type, dictionaries are
    association lists in insertion order, and the effects of a handler
    (RPC calls, log records, exceptions) are kept in a small monad. *)

From Stdlib Require Import ZArith String Ascii List.
From stdpp Require Import base list strings pretty.

Local Open Scope string_scope.
Local Open Scope list_scope.
Set Warnings "-register-all".

(** ** The Python runtime the handlers rely on *)

(** What the handlers use of CPython but do not define: floats, and the
    two string escapers, [repr] on [str] (which consults the Unicode
    database) and the JSON encoder's [encode_basestring_ascii]. *)
Class PyRuntime := {
  pyfloat : Type;
  float_repr : pyfloat → string;
  float_json : pyfloat → string;
  float_bool : pyfloat → bool;
  str_repr : string → string;
  json_str : string → string;
}.

Module Py.

Definition nl : string := String "010"%char EmptyString.

Section Values.
Context {rt : PyRuntime}.

(** A JSON-like Python value.  A [str] is held as its UTF-8 bytes; a
    [dict] keeps its items in insertion order. *)
Inductive value : Type :=
| VNone
| VBool (b : bool)
| VInt (n : Z)
| VFloat (x : pyfloat)
| VStr (s : string)
| VList (l : list value)
| VDict (d : list (string * value)).

Definition dict : Type := list (string * value).

(** [type(v).__name__] *)
Definition type_name (v : value) : string :=
  match v with
  | VNone => "NoneType"
  | VBool _ => "bool"
  | VInt _ => "int"
  | VFloat _ => "float"
  | VStr _ => "str"
  | VList _ => "list"
  | VDict _ => "dict"
  end.

(** [isinstance(v, dict)] *)
Definition is_dict (v : value) : bool :=
  match v with VDict _ => true | _ => false end.

(** [v is None] *)
Definition is_none (v : value) : bool :=
  match v with VNone => true | _ => false end.

(** *** Dictionaries *)

(** [d.get(k)] as an option: the binding of [k], if any. *)
Fixpoint dict_get (d : dict) (k : string) : option value :=
  match d with
  | [] => None
  | (k', v) :: d' => if String.eqb k' k then Some v else dict_get d' k
  end.

(** [k in d] *)
Definition dict_contains (d : dict) (k : string) : bool :=
  match dict_get d k with Some _ => true | None => false end.

(** [d.get(k, default)] *)
Definition get (d : dict) (k : string) (default : value) : value :=
  match dict_get d k with Some v => v | None => default end.

(** [d[k] = v]: an existing key keeps its place, a new one goes last. *)
Fixpoint dict_set (d : dict) (k : string) (v : value) : dict :=
  match d with
  | [] => [(k, v)]
  | (k', v') :: d' =>
      if String.eqb k' k then (k', v) :: d' else (k', v') :: dict_set d' k v
  end.

(** *** Truth value, [repr], [str] *)

(** [bool(v)], the test of [if v:]. *)
Definition truthy (v : value) : bool :=
  match v with
  | VNone => false
  | VBool b => b
  | VInt n => negb (n =? 0)%Z
  | VFloat x => float_bool x
  | VStr s => negb (String.eqb s "")
  | VList l => match l with [] => false | _ => true end
  | VDict d => match d with [] => false | _ => true end
  end.

Fixpoint py_repr (v : value) : string :=
  match v with
  | VNone => "None"
  | VBool b => if b then "True" else "False"
  | VInt n => pretty n
  | VFloat x => float_repr x
  | VStr s => str_repr s
  | VList l => "[" +:+ String.concat ", " (map py_repr l) +:+ "]"
  | VDict d =>
      "{" +:+ String.concat ", "
                (map (λ kv, str_repr (fst kv) +:+ ": " +:+ py_repr (snd kv)) d)
          +:+ "}"
  end.

(** [str(v)], which is also what an f-string field [{v}] prints. *)
Definition py_str (v : value) : string :=
  match v with
  | VStr s => s
  | _ => py_repr v
  end.

(** *** [json.dumps(v, indent=2)] *)

Fixpoint spaces (n : nat) : string :=
  match n with O => "" | S n' => String " "%char (spaces n') end.

(** The line break and indentation before an item at nesting [level]. *)
Definition newline_indent (level : nat) : string := nl +:+ spaces (2 * level).

Fixpoint json_dumps_at (level : nat) (v : value) : string :=
  match v with
  | VNone => "null"
  | VBool b => if b then "true" else "false"
  | VInt n => pretty n
  | VFloat x => float_json x
  | VStr s => json_str s
  | VList l =>
      match l with
      | [] => "[]"
      | _ =>
          "[" +:+ newline_indent (S level)
              +:+ String.concat ("," +:+ newline_indent (S level))
                    (map (json_dumps_at (S level)) l)
              +:+ newline_indent level +:+ "]"
      end
  | VDict d =>
      match d with
      | [] => "{}"
      | _ =>
          "{" +:+ newline_indent (S level)
              +:+ String.concat ("," +:+ newline_indent (S level))
                    (map (λ kv, json_str (fst kv) +:+ ": "
                                  +:+ json_dumps_at (S level) (snd kv)) d)
              +:+ newline_indent level +:+ "}"
      end
  end.

Definition json_dumps (v : value) : string := json_dumps_at 0 v.

(** *** Characters of a [str] *)

(** A UTF-8 continuation byte, [0x80..0xBF]. *)
Definition is_continuation (a : ascii) : bool :=
  let n := N_of_ascii a in ((128 <=? n) && (n <? 192))%N.

(** The continuation bytes [s] starts with, and the characters after. *)
Fixpoint str_chars_aux (s : string) : string * list string :=
  match s with
  | EmptyString => (EmptyString, [])
  | String a s' =>
      let (pending, cs) := str_chars_aux s' in
      if is_continuation a then (String a pending, cs)
      else (EmptyString, String a pending :: cs)
  end.

(** The code points of a [str], each as a one-character [str]. *)
Definition str_chars (s : string) : list string :=
  let (pending, cs) := str_chars_aux s in
  match pending with EmptyString => cs | _ => pending :: cs end.

(** *** Exceptions and effects *)

(** A raised [Exception]: its class and [str(e)].  Only instances of
    [Exception] are modelled, the ones an [except Exception] clause
    catches. *)
Record exn : Type := Exn { exn_class : string; exn_text : string }.

Inductive level : Type := DEBUG | ERROR.

(** What a handler does to the outside: calls of the RPC client and
    records given to the logger. *)
Inductive event : Type :=
| RpcCall (method : string) (params : dict)
| LogRecord (lvl : level) (msg : string).

(** A computation: the events it caused, in order, and how it ended,
    with a raised exception or with a value. *)
Record eff (A : Type) : Type := Eff { trace : list event; outcome : exn + A }.
Global Arguments Eff {A} _ _.
Global Arguments trace {A} _.
Global Arguments outcome {A} _.

Definition eff_ret {A} (a : A) : eff A := Eff [] (inr a).

Definition eff_bind {A B} (f : A → eff B) (m : eff A) : eff B :=
  match outcome m with
  | inl e => Eff (trace m) (inl e)
  | inr a => Eff (trace m ++ trace (f a)) (outcome (f a))
  end.

#[global] Instance eff_mret : MRet eff := @eff_ret.
#[global] Instance eff_mbind : MBind eff := @eff_bind.

Definition raise {A} (e : exn) : eff A := Eff [] (inl e).

(** [try: body / except Exception as e: handler e] *)
Definition try_except {A} (body : eff A) (handler : exn → eff A) : eff A :=
  match outcome body with
  | inl e => Eff (trace body ++ trace (handler e)) (outcome (handler e))
  | inr a => body
  end.

(** [for x in xs: acc = body x acc], the loop variable state threaded. *)
Fixpoint for_each {A S} (xs : list A) (acc : S) (body : A → S → eff S) : eff S :=
  match xs with
  | [] => mret acc
  | x :: xs' => acc' ← body x acc; for_each xs' acc' body
  end.

(** [l.append(x)] *)
Definition append {A} (l : list A) (x : A) : list A := l ++ [x].

(** The RPC calls of a trace, and its log messages at a level. *)
Definition rpc_calls (t : list event) : list (string * dict) :=
  omap (λ ev, match ev with RpcCall m p => Some (m, p) | _ => None end) t.

Definition log_messages (lvl : level) (t : list event) : list string :=
  omap (λ ev, match ev with
              | LogRecord DEBUG msg =>
                  match lvl with DEBUG => Some msg | ERROR => None end
              | LogRecord ERROR msg =>
                  match lvl with ERROR => Some msg | DEBUG => None end
              | _ => None
              end) t.

(** A computation that neither calls the client nor logs. *)
Definition quiet {A} (m : eff A) : Prop := trace m = [].

(** *** Builtins that can raise *)

(** [len(v)] *)
Definition py_len (v : value) : eff nat :=
  match v with
  | VStr s => mret (length (str_chars s))
  | VList l => mret (length l)
  | VDict d => mret (length d)
  | _ => raise (Exn "TypeError"
                  ("object of type '" +:+ type_name v +:+ "' has no len()"))
  end.

(** [iter(v)] run to the end: the items a [for] loop visits. *)
Definition py_iter (v : value) : eff (list value) :=
  match v with
  | VList l => mret l
  | VStr s => mret (VStr <$> str_chars s)
  | VDict d => mret (VStr <$> d.*1)
  | _ => raise (Exn "TypeError"
                  ("'" +:+ type_name v +:+ "' object is not iterable"))
  end.

(** [v.get(k, default)], an attribute only a [dict] has. *)
Definition py_get (v : value) (k : string) (default : value) : eff value :=
  match v with
  | VDict d => mret (get d k default)
  | _ => raise (Exn "AttributeError"
                  ("'" +:+ type_name v +:+ "' object has no attribute 'get'"))
  end.

(** [d[k]] *)
Definition getitem (d : dict) (k : string) : eff value :=
  match dict_get d k with
  | Some v => mret v
  | None => raise (Exn "KeyError" (str_repr k))
  end.

End Values.

Global Arguments value : clear implicits.
Global Arguments dict : clear implicits.

End Py.

(** ** The collaborators of the handlers *)

Module Mcp.

(** [mcp.types.TextContent], as far as the handlers fill it. *)
Record TextContent : Type := { type : string; text : string }.

(** [mcp.types.Tool], as far as the catalogs fill it. *)
Record Tool {rt : PyRuntime} : Type :=
  { name : string; description : string; inputSchema : Py.dict rt }.
Global Arguments Tool : clear implicits.

End Mcp.

Module Rpc.
Import Py.

Section Client.
Context {rt : PyRuntime}.

(** Modelled from the spec: the error of an RPC response, whose class
    the handlers only import; section 3 of the spec gives it an integer
    code and a string message. *)
Record RpcError : Type := { code : Z; message : string }.

(** Modelled from the spec: the response of the RPC client, whose class
    the handlers only import.  [result] is [VNone] when absent and
    [error] is populated exactly when it is [Some]. *)
Record RpcResponse : Type := { result : value rt; error : option RpcError }.

(** Modelled from the spec: the TCP client of [tcp_client.py], which the
    handlers only import, by its one operation: it answers a method and
    a payload with a response, or raises. *)
Definition TcpClient : Type := string → dict rt → exn + RpcResponse.

Definition call_with_retry (client : TcpClient) (method : string)
    (params : dict rt) : eff RpcResponse :=
  Eff [RpcCall method params] (client method params).

(** A successful response carrying [v], and a failed one. *)
Definition success (v : value rt) : RpcResponse :=
  {| result := v; error := None |}.

Definition failure (c : Z) (m : string) : RpcResponse :=
  {| result := VNone; error := Some {| code := c; message := m |} |}.

(** A stub client: every call ends the same way. *)
Definition always (o : exn + RpcResponse) : TcpClient := λ _ _, o.

(** The clients of the theorems: every call returns [r], or raises [e]. *)
Definition returns (client : TcpClient) (r : RpcResponse) : Prop :=
  ∀ method params, client method params = inr r.

Definition raises (client : TcpClient) (e : exn) : Prop :=
  ∀ method params, client method params = inl e.

End Client.

Global Arguments RpcResponse : clear implicits.
Global Arguments TcpClient : clear implicits.

End Rpc.

(** The logger of [utils/logger.py]: a record per call, nothing else. *)
Module Logger.
Import Py.

Definition debug `{PyRuntime} (msg : string) : eff unit :=
  Eff [LogRecord DEBUG msg] (inr ()).

Definition error `{PyRuntime} (msg : string) : eff unit :=
  Eff [LogRecord ERROR msg] (inr ()).

End Logger.

(** ** [tools/load_manager_tools.py] *)

Module LoadManagerTools.
Import Py Mcp Rpc.

Section Handlers.
Context {rt : PyRuntime}.

Definition get_load_manager_tools (tcp_client : TcpClient rt) : list (Tool rt) :=
  [ {| name := "s1_list_saves";
       description :=
         "List all available save games with their properties. Returns an array of save game objects with all available metadata.";
       inputSchema :=
         [("type", VStr "object");
          ("properties", VDict []);
          ("required", VList [])] |};
    {| name := "s1_load_save";
       description :=
         "Load a specific save game by slot index. If a save is already loaded (not in menu scene), "
         +:+ "this will automatically return to the menu first before loading the requested save. "
         +:+ "Note: Slot indices are 0-based (use 0 for first save, 1 for second, etc.).";
       inputSchema :=
         [("type", VStr "object");
          ("properties",
           VDict [("slot_index",
                   VDict [("type", VStr "integer");
                          ("description",
                           VStr "The 0-based index of the save slot to load");
                          ("minimum", VInt 0)])]);
          ("required", VList [VStr "slot_index"])] |} ].

Definition handle_s1_list_saves (arguments : dict rt)
    (tcp_client : TcpClient rt) : eff (list TextContent) :=
  try_except
    (response ← call_with_retry tcp_client "list_saves" [];
     match error response with
     | Some err =>
         mret [{| type := "text";
                  text := "Error: " +:+ message err
                            +:+ " (code: " +:+ pretty (code err) +:+ ")" |}]
     | None =>
         let result_text := json_dumps (result response) in
         match result response with
         | VDict d =>
             if dict_contains d "saves" then
               let save_count := get d "count" (VInt 0) in
               let summary := "Found " +:+ py_str save_count
                                +:+ " save game(s):" +:+ nl +:+ nl
                                +:+ result_text in
               mret [{| type := "text"; text := summary |}]
             else mret [{| type := "text"; text := result_text |}]
         | _ => mret [{| type := "text"; text := result_text |}]
         end
     end)
    (λ e,
       Logger.error ("Error in s1_list_saves: " +:+ exn_text e);;
       mret [{| type := "text"; text := "Error: " +:+ exn_text e |}]).

Definition handle_s1_load_save (arguments : dict rt)
    (tcp_client : TcpClient rt) : eff (list TextContent) :=
  try_except
    (let slot_index := get arguments "slot_index" VNone in
     if is_none slot_index then
       mret [{| type := "text";
                text := "Error: slot_index parameter is required" |}]
     else
       response ← call_with_retry tcp_client "load_save"
                    [("slot_index", slot_index)];
       match error response with
       | Some err =>
           mret [{| type := "text";
                    text := "Error: " +:+ message err
                              +:+ " (code: " +:+ pretty (code err) +:+ ")" |}]
       | None =>
           match result response with
           | VDict d =>
               let success := get d "success" (VBool false) in
               let message := get d "message" (VStr "") in
               let returned_to_menu := get d "returned_to_menu" (VBool false) in
               let status_text := "✓ " +:+ py_str message in
               let status_text :=
                 if truthy returned_to_menu then
                   status_text +:+ nl
                     +:+ "  Note: Game was returned to menu before loading the save."
                 else status_text in
               mret [{| type := "text"; text := status_text |}]
           | _ =>
               mret [{| type := "text";
                        text := json_dumps (result response) |}]
           end
       end)
    (λ e,
       Logger.error ("Error in s1_load_save: " +:+ exn_text e);;
       mret [{| type := "text"; text := "Error: " +:+ exn_text e |}]).

(** The tool handler mapping. *)
Definition TOOL_HANDLERS
    : list (string * (dict rt → TcpClient rt → eff (list TextContent))) :=
  [("s1_list_saves", handle_s1_list_saves);
   ("s1_load_save", handle_s1_load_save)].

End Handlers.

End LoadManagerTools.

(** ** [tools/log_tools.py] *)

Module LogTools.
Import Py Mcp Rpc.

Section Handlers.
Context {rt : PyRuntime}.

Definition get_log_tools (tcp_client : TcpClient rt) : list (Tool rt) :=
  [ {| name := "s1_capture_logs";
       description :=
         "Capture and filter game logs from MelonLoader for debugging. "
         +:+ "Retrieves logs from the game's Latest.log file with optional filtering by keywords, "
         +:+ "timestamps, regex patterns, and line count limits. Useful for agentic debugging to "
         +:+ "diagnose issues, track errors, and understand game behavior.";
       inputSchema :=
         [("type", VStr "object");
          ("properties",
           VDict
             [("last_n_lines",
               VDict [("type", VStr "integer");
                      ("description",
                       VStr "Get the last N lines from the log file. Cannot be used with first_n_lines.");
                      ("minimum", VInt 1)]);
              ("first_n_lines",
               VDict [("type", VStr "integer");
                      ("description",
                       VStr "Get the first N lines from the log file. Cannot be used with last_n_lines.");
                      ("minimum", VInt 1)]);
              ("keyword",
               VDict [("type", VStr "string");
                      ("description",
                       VStr "Filter logs by keyword (case-insensitive search). Returns only lines containing this keyword.")]);
              ("from_timestamp",
               VDict [("type", VStr "string");
                      ("description",
                       VStr "Filter logs from this timestamp onwards. Format: HH:mm:ss or HH:mm:ss.fff (e.g., '12:30:45' or '12:30:45.123')")]);
              ("to_timestamp",
               VDict [("type", VStr "string");
                      ("description",
                       VStr "Filter logs up to this timestamp. Format: HH:mm:ss or HH:mm:ss.fff (e.g., '12:35:00' or '12:35:00.999')")]);
              ("include_pattern",
               VDict [("type", VStr "string");
                      ("description",
                       VStr "Regex pattern to include matching lines (case-insensitive). Only lines matching this pattern will be returned.")]);
              ("exclude_pattern",
               VDict [("type", VStr "string");
                      ("description",
                       VStr "Regex pattern to exclude matching lines (case-insensitive). Lines matching this pattern will be filtered out.")])]);
          ("required", VList [])] |} ].

(** [if key in arguments: params[key] = arguments[key]] *)
Definition copy_param (arguments : dict rt) (key : string)
    (params : dict rt) : eff (dict rt) :=
  if dict_contains arguments key then
    v ← getitem arguments key; mret (dict_set params key v)
  else mret params.

(** The block under [# Build parameters from arguments]. *)
Definition build_params (arguments : dict rt) : eff (dict rt) :=
  let params : dict rt := [] in
  params ← copy_param arguments "last_n_lines" params;
  params ← copy_param arguments "first_n_lines" params;
  params ← copy_param arguments "keyword" params;
  params ← copy_param arguments "from_timestamp" params;
  params ← copy_param arguments "to_timestamp" params;
  params ← copy_param arguments "include_pattern" params;
  params ← copy_param arguments "exclude_pattern" params;
  mret params.

(** The body of the loop over [lines]. *)
Definition append_line (line_obj : value rt) (output_lines : list string)
    : eff (list string) :=
  line_num ← py_get line_obj "line_number" (VStr "?");
  timestamp ← py_get line_obj "timestamp" (VStr "");
  content ← py_get line_obj "content" (VStr "");
  if truthy timestamp then
    mret (append output_lines ("[Line " +:+ py_str line_num +:+ "] ["
                             +:+ py_str timestamp +:+ "] " +:+ py_str content))
  else
    mret (append output_lines ("[Line " +:+ py_str line_num +:+ "] "
                             +:+ py_str content)).

(** The block under [# Build formatted output], for a result that is a
    [dict]. *)
Definition format_report (result : dict rt) : eff (list TextContent) :=
  let lines := get result "lines" (VList []) in
  let total_lines := get result "total_lines_in_file" (VInt 0) in
  let filtered_count := get result "filtered_count" (VInt 0) in
  let filters_applied := get result "filters_applied" (VList []) in
  let warning := get result "warning" VNone in
  let output_lines := [] in
  let output_lines :=
    if truthy warning then
      append output_lines ("⚠️ Warning: " +:+ py_str warning +:+ nl)
    else output_lines in
  let output_lines := append output_lines ("📊 Log Summary:") in
  let output_lines :=
    append output_lines ("  • Total lines in file: " +:+ py_str total_lines) in
  let output_lines :=
    append output_lines ("  • Lines after filtering: " +:+ py_str filtered_count) in
  returned ← py_len lines;
  let output_lines :=
    append output_lines ("  • Lines returned: " +:+ pretty returned) in
  output_lines ←
    (if truthy filters_applied then
       let output_lines := append output_lines (nl +:+ "🔍 Filters Applied:") in
       descs ← py_iter filters_applied;
       for_each descs output_lines
         (λ filter_desc output_lines,
            mret (append output_lines ("  • " +:+ py_str filter_desc)))
     else mret output_lines);
  output_lines ←
    (if truthy lines then
       let output_lines := append output_lines (nl +:+ "📝 Log Lines:" +:+ nl) in
       line_objs ← py_iter lines;
       for_each line_objs output_lines append_line
     else
       mret (append output_lines (nl +:+ "(No log lines matched the filters)")));
  mret [{| type := "text"; text := String.concat nl output_lines |}].

Definition handle_s1_capture_logs (arguments : dict rt)
    (tcp_client : TcpClient rt) : eff (list TextContent) :=
  try_except
    (params ← build_params arguments;
     Logger.debug ("Capturing logs with params: " +:+ py_str (VDict params));;
     response ← call_with_retry tcp_client "capture_logs" params;
     match error response with
     | Some err =>
         mret [{| type := "text";
                  text := "Error: " +:+ message err
                            +:+ " (code: " +:+ pretty (code err) +:+ ")" |}]
     | None =>
         let result := result response in
         match result with
         | VDict d => format_report d
         | _ => mret [{| type := "text"; text := py_str result |}]
         end
     end)
    (λ e,
       Logger.error ("Error in s1_capture_logs: " +:+ exn_text e);;
       mret [{| type := "text"; text := "Error: " +:+ exn_text e |}]).

(** The tool handler mapping. *)
Definition TOOL_HANDLERS
    : list (string * (dict rt → TcpClient rt → eff (list TextContent))) :=
  [("s1_capture_logs", handle_s1_capture_logs)].

End Handlers.

End LogTools.

(** ** A concrete runtime for examples

    CPython's escapers written out for values without floats.  [repr]
    copies the bytes of non-ASCII characters, which is what CPython does
    for the printable ones. *)

Module CPython.

Definition hex_digit (n : N) : ascii :=
  if (n <? 10)%N then ascii_of_N (48 + n) else ascii_of_N (87 + n).

Definition hex2 (n : N) : string :=
  String (hex_digit (n / 16 mod 16)) (String (hex_digit (n mod 16)) "").

Definition hex4 (n : N) : string := hex2 (n / 256) +:+ hex2 (n mod 256).

Definition quote : ascii := "034"%char.
Definition apostrophe : ascii := "039"%char.
Definition backslash : ascii := "092"%char.

Fixpoint contains_char (c : ascii) (s : string) : bool :=
  match s with
  | EmptyString => false
  | String a s' => Ascii.eqb a c || contains_char c s'
  end.

(** One character of [repr(s)] inside the quotes [q]. *)
Definition repr_char (q a : ascii) : string :=
  let n := N_of_ascii a in
  if Ascii.eqb a q || Ascii.eqb a backslash then String backslash (String a "")
  else if (n =? 9)%N then "\t"
  else if (n =? 10)%N then "\n"
  else if (n =? 13)%N then "\r"
  else if (n <? 32)%N || (n =? 127)%N then "\x" +:+ hex2 n
  else String a "".

Fixpoint repr_chars (q : ascii) (s : string) : string :=
  match s with
  | EmptyString => EmptyString
  | String a s' => repr_char q a +:+ repr_chars q s'
  end.

Definition unicode_repr (s : string) : string :=
  let q := if contains_char apostrophe s && negb (contains_char quote s)
           then quote else apostrophe in
  String q (repr_chars q s) +:+ String q "".

(** The escape of a code point outside [' '..'~']. *)
Definition json_u (cp : N) : string :=
  if (cp <? 0x10000)%N then "\u" +:+ hex4 cp
  else
    let n := (cp - 0x10000)%N in
    "\u" +:+ hex4 (N.lor 0xd800 (N.land (N.shiftr n 10) 0x3ff))
         +:+ "\u" +:+ hex4 (N.lor 0xdc00 (N.land n 0x3ff)).

Definition json_ascii (a : ascii) : string :=
  let n := N_of_ascii a in
  if Ascii.eqb a quote || Ascii.eqb a backslash then String backslash (String a "")
  else if (n =? 8)%N then "\b"
  else if (n =? 9)%N then "\t"
  else if (n =? 10)%N then "\n"
  else if (n =? 12)%N then "\f"
  else if (n =? 13)%N then "\r"
  else if (n <? 32)%N || (n =? 127)%N then json_u n
  else String a "".

(** The body of a JSON string, decoding UTF-8 on the way: [pending] is
    the code point read so far and [need] the continuation bytes due. *)
Fixpoint json_chars (s : string) (pending : N) (need : nat) : string :=
  match s with
  | EmptyString => EmptyString
  | String a s' =>
      let b := N_of_ascii a in
      match need with
      | O =>
          if (b <? 0x80)%N then json_ascii a +:+ json_chars s' 0%N 0
          else if (b <? 0xe0)%N then json_chars s' (N.land b 0x1f) 1
          else if (b <? 0xf0)%N then json_chars s' (N.land b 0x0f) 2
          else json_chars s' (N.land b 0x07) 3
      | S n =>
          let cp := (pending * 64 + N.land b 0x3f)%N in
          match n with
          | O => json_u cp +:+ json_chars s' 0%N 0
          | _ => json_chars s' cp n
          end
      end
  end.

Definition encode_basestring_ascii (s : string) : string :=
  String quote (json_chars s 0%N 0) +:+ String quote "".

Definition runtime : PyRuntime := {|
  pyfloat := Empty_set;
  float_repr := λ x, match x with end;
  float_json := λ x, match x with end;
  float_bool := λ x, match x with end;
  str_repr := unicode_repr;
  json_str := encode_basestring_ascii;
|}.

End CPython.

(** ** Spec-side definitions *)

Module Spec.
Import Py Mcp Rpc.

(** The parameters of [capture_logs], as its input schema lists them. *)
Definition capture_keys : list string :=
  ["last_n_lines"; "first_n_lines"; "keyword"; "from_timestamp";
   "to_timestamp"; "include_pattern"; "exclude_pattern"].

(** [sub] occurs in [s]. *)
Definition substring (sub s : string) : Prop :=
  ∃ before after, s = before +:+ sub +:+ after.

Definition text_block (s : string) : TextContent :=
  {| type := "text"; text := s |}.

(** The line every handler shows for a remote error. *)
Definition rpc_error_line (c : Z) (m : string) : string :=
  "Error: " +:+ m +:+ " (code: " +:+ pretty c +:+ ")".

Section Reports.
Context {rt : PyRuntime}.

(** [load_save] reaches its RPC call: [slot_index] is given and not
    [None]. *)
Definition slot_given (arguments : dict rt) : Prop :=
  is_none (get arguments "slot_index" VNone) = false.

(** The item [capture_logs] forwards for [key]: the caller's, if any. *)
Definition forwarded (arguments : dict rt) (key : string) : dict rt :=
  match dict_get arguments key with
  | Some v => [(key, v)]
  | None => []
  end.

(** The sparse payload: the parameters present in the call, unmodified. *)
Definition sparse_payload (arguments : dict rt) : dict rt :=
  capture_keys ≫= forwarded arguments.

(** *** Reading an input schema *)

(** The parameter names a schema declares under [properties]. *)
Definition schema_properties (schema : dict rt) : list string :=
  match dict_get schema "properties" with
  | Some (VDict props) => props.*1
  | _ => []
  end.

(** The parameter names a schema lists under [required]. *)
Definition schema_required (schema : dict rt) : list string :=
  match dict_get schema "required" with
  | Some (VList names) =>
      omap (λ v, match v with VStr s => Some s | _ => None end) names
  | _ => []
  end.

(** The arguments supply [key]: it is there and its value is not [None]. *)
Definition supplied (arguments : dict rt) (key : string) : bool :=
  negb (is_none (get arguments key VNone)).

(** [len] is defined on [v]. *)
Definition sized (v : value rt) : bool :=
  match v with VStr _ | VList _ | VDict _ => true | _ => false end.

(** The entries a [for] loop over [v] visits when [v] is truthy: none for
    a falsy value, undefined for a truthy one that cannot be walked. *)
Definition loop_items (v : value rt) : option (list (value rt)) :=
  match v with
  | VList l => Some l
  | VStr s => Some (VStr <$> str_chars s)
  | VDict d => Some (VStr <$> d.*1)
  | _ => if truthy v then None else Some []
  end.

(** *** The report of [capture_logs], after section 4.2 of the spec *)

Definition as_mapping (v : value rt) : option (dict rt) :=
  match v with VDict d => Some d | _ => None end.

(** The returned lines: none when the field is absent, the entries when
    it is a list of mappings. *)
Definition returned_lines (result : dict rt) : option (list (dict rt)) :=
  match dict_get result "lines" with
  | None => Some []
  | Some (VList l) => mapM as_mapping l
  | Some _ => None
  end.

(** The applied filters: none when the field is absent, the entries when
    it is a list. *)
Definition applied_filters (result : dict rt) : option (list (value rt)) :=
  match dict_get result "filters_applied" with
  | None => Some []
  | Some (VList l) => Some l
  | Some _ => None
  end.

(** 1. The warning, when there is one, as a flagged line. *)
Definition warning_block (result : dict rt) : list string :=
  match dict_get result "warning" with
  | Some w => if truthy w then ["⚠️ Warning: " +:+ py_str w +:+ nl] else []
  | None => []
  end.

(** 2. The summary: lines in the file, after filtering, returned. *)
Definition summary_block (result : dict rt) (returned : nat) : list string :=
  ["📊 Log Summary:";
   "  • Total lines in file: "
     +:+ py_str (get result "total_lines_in_file" (VInt 0));
   "  • Lines after filtering: "
     +:+ py_str (get result "filtered_count" (VInt 0));
   "  • Lines returned: " +:+ pretty returned].

(** 3. A bullet per applied filter, under a heading, when there is one. *)
Definition filters_block (filters : list (value rt)) : list string :=
  match filters with
  | [] => []
  | _ => (nl +:+ "🔍 Filters Applied:")
           :: map (λ desc, "  • " +:+ py_str desc) filters
  end.

(** 4. A line, with its timestamp when it has one. *)
Definition render_line (line : dict rt) : string :=
  let number := py_str (get line "line_number" (VStr "?")) in
  let content := py_str (get line "content" (VStr "")) in
  match dict_get line "timestamp" with
  | Some stamp =>
      if truthy stamp then
        "[Line " +:+ number +:+ "] [" +:+ py_str stamp +:+ "] " +:+ content
      else "[Line " +:+ number +:+ "] " +:+ content
  | None => "[Line " +:+ number +:+ "] " +:+ content
  end.

(** 4 and 5. The lines in the server's order, or the notice that none
    matched. *)
Definition lines_block (lines : list (dict rt)) : list string :=
  match lines with
  | [] => [nl +:+ "(No log lines matched the filters)"]
  | _ => (nl +:+ "📝 Log Lines:" +:+ nl) :: map render_line lines
  end.

Definition report (result : dict rt) (filters : list (value rt))
    (lines : list (dict rt)) : list string :=
  warning_block result ++ summary_block result (length lines)
    ++ filters_block filters ++ lines_block lines.

End Reports.

End Spec.

(** ** Sample results of the game server, on the CPython runtime *)

Module Samples.
Import Py.

(** The saves of the spec's example. *)
Definition three_saves : value CPython.runtime :=
  VDict [("saves", VList [VStr "Farm"; VStr "Town"; VStr "Lab"]);
         ("count", VInt 3)].

(** A [load_save] result whose [returned_to_menu] is a string. *)
Definition menu_as_text : dict CPython.runtime :=
  [("success", VBool true); ("message", VStr "Loaded slot 2");
   ("returned_to_menu", VStr "no")].

(** [capture_logs] results: a warning and a timestamp that are present
    but empty; lines that are [None]; filters that are a number. *)
Definition empty_fields : dict CPython.runtime :=
  [("lines", VList [VDict [("line_number", VInt 7); ("timestamp", VStr "");
                           ("content", VStr "Game started")]]);
   ("total_lines_in_file", VInt 120); ("filtered_count", VInt 1);
   ("filters_applied", VList []); ("warning", VStr "")].

Definition null_lines : dict CPython.runtime :=
  [("lines", VNone); ("total_lines_in_file", VInt 120)].

Definition numeric_filters : dict CPython.runtime :=
  [("lines", VList []); ("filters_applied", VInt 3)].

(** A report with a warning, a filter and two lines, one without a
    timestamp. *)
Definition two_lines : dict CPython.runtime :=
  [("lines", VList [VDict [("line_number", VInt 7);
                           ("timestamp", VStr "12:30:45");
                           ("content", VStr "error: no save")];
                    VDict [("line_number", VInt 9); ("timestamp", VStr "");
                           ("content", VStr "error again")]]);
   ("total_lines_in_file", VInt 120);
   ("filtered_count", VInt 2);
   ("filters_applied", VList [VStr "keyword: error"]);
   ("warning", VStr "log truncated")].

(** Lines of which the second is not a mapping. *)
Definition raw_line : dict CPython.runtime :=
  [("lines", VList [VDict [("line_number", VInt 1); ("content", VStr "boot")];
                    VStr "raw text"]);
   ("filters_applied", VList [VStr "keyword: boot"])].

(** Filters sent as one string. *)
Definition text_filters : dict CPython.runtime :=
  [("lines", VList []); ("filters_applied", VStr "ab")].

(** Arguments of [capture_logs] with a key the tool does not declare. *)
Definition verbose_arguments : dict CPython.runtime :=
  [("verbose", VBool true); ("keyword", VStr "error")].

(** A listing with every kind of JSON value, nested three levels deep,
    and one without a [count]. *)
Definition save_listing : value CPython.runtime :=
  VDict [("saves",
          VList [VDict [("slot", VInt 0); ("name", VStr "Café");
                        ("playtime", VInt (-1)); ("tags", VList []);
                        ("meta", VDict []); ("active", VBool true);
                        ("mod", VNone)];
                 VDict [("slot", VInt 1); ("name", VStr "Town")]]);
         ("count", VInt 2)].

Definition uncounted_saves : value CPython.runtime :=
  VDict [("saves", VList [VStr "Farm"])].

(** The double quote, for the expected texts. *)
Definition q : string := String CPython.quote "".

End Samples.

(** ** Laws of the effect monad *)

Section EffLaws.
Import Py.
Context {rt : PyRuntime}.

Lemma eff_eta {A} (m : eff A) : Eff (trace m) (outcome m) = m.
Proof. by destruct m. Qed.

Lemma bind_ret_l {A B} (a : A) (f : A → eff B) : (mret a ≫= f) = f a.
Proof. unfold mbind, eff_mbind, eff_bind; simpl. apply eff_eta. Qed.

Lemma bind_raise {A B} (e : exn) (f : A → eff B) : (raise e ≫= f) = raise e.
Proof. reflexivity. Qed.

Lemma bind_assoc {A B C} (m : eff A) (f : A → eff B) (g : B → eff C) :
  ((m ≫= f) ≫= g) = (m ≫= λ a, f a ≫= g).
Proof.
  unfold mbind, eff_mbind, eff_bind.
  destruct m as [t [e|a]]; simpl; [done|].
  destruct (f a) as [t' [e|b]]; simpl; [done|].
  by rewrite (assoc_L (++)).
Qed.

Lemma try_except_value {A} (m : eff A) (h : exn → eff A) (a : A) :
  outcome m = inr a → try_except m h = m.
Proof. unfold try_except. by intros ->. Qed.

Lemma try_except_raise {A} (m : eff A) (h : exn → eff A) (e : exn) :
  outcome m = inl e →
  try_except m h = Eff (trace m ++ trace (h e)) (outcome (h e)).
Proof. unfold try_except. by intros ->. Qed.

(** A loop whose body only appends an entry appends the image of the
    items, in their order. *)
Lemma for_each_append {A B} (f : A → B) (xs : list A) (acc : list B) :
  for_each xs acc (λ x acc, mret (acc ++ [f x])) = mret (acc ++ map f xs).
Proof.
  revert acc. induction xs as [|x xs IH]; intros acc; cbn [for_each map].
  - by rewrite (right_id_L [] (++)).
  - by rewrite bind_ret_l, IH, <- (assoc_L (++)).
Qed.

End EffLaws.

(** ** Computations without events *)

Section Quiet.
Import Py.
Context {rt : PyRuntime}.

Lemma quiet_ret {A} (a : A) : quiet (mret a : eff A).
Proof. reflexivity. Qed.

Lemma quiet_raise {A} (e : exn) : quiet (raise e : eff A).
Proof. reflexivity. Qed.

Lemma quiet_bind {A B} (m : eff A) (f : A → eff B) :
  quiet m → (∀ a, quiet (f a)) → quiet (m ≫= f).
Proof.
  unfold quiet, mbind, eff_mbind, eff_bind. intros Hm Hf.
  destruct (outcome m) as [e|a]; simpl; [done|].
  by rewrite Hm, Hf.
Qed.

Lemma quiet_for_each {A S} (xs : list A) (acc : S) (body : A → S → eff S) :
  (∀ x s, quiet (body x s)) → quiet (for_each xs acc body).
Proof.
  intros Hbody. revert acc.
  induction xs as [|x xs IH]; intros acc; cbn [for_each].
  - apply quiet_ret.
  - apply quiet_bind; auto.
Qed.

Lemma quiet_py_len (v : value rt) : quiet (py_len v).
Proof. by destruct v. Qed.

Lemma quiet_py_iter (v : value rt) : quiet (py_iter v).
Proof. by destruct v. Qed.

Lemma quiet_py_get (v : value rt) k default : quiet (py_get v k default).
Proof. by destruct v. Qed.

Lemma quiet_getitem (d : dict rt) k : quiet (getitem d k).
Proof. unfold getitem. by destruct (dict_get d k). Qed.

End Quiet.

Create HintDb quiet.
#[global] Hint Resolve quiet_ret quiet_raise quiet_py_len quiet_py_iter
  quiet_py_get quiet_getitem : quiet.

(** ** Dictionaries *)

Section Dicts.
Import Py.
Context {rt : PyRuntime}.

Lemma dict_get_None (d : dict rt) (k : string) :
  dict_get d k = None ↔ k ∉ d.*1.
Proof.
  induction d as [|[k' v] d IH]; simpl.
  - split; [intros _; apply not_elem_of_nil|done].
  - rewrite not_elem_of_cons. destruct (String.eqb_spec k' k) as [->|Hne].
    + split; [done|]. by intros [? _].
    + rewrite IH. split; [intros Hd; split; [congruence|done]|by intros [_ Hd]].
Qed.

Lemma dict_contains_get (d : dict rt) (k : string) :
  dict_contains d k = false ↔ dict_get d k = None.
Proof. unfold dict_contains. by destruct (dict_get d k). Qed.

(** Setting a key that is not there yet puts it last. *)
Lemma dict_set_fresh (d : dict rt) (k : string) (v : value rt) :
  k ∉ d.*1 → dict_set d k v = d ++ [(k, v)].
Proof.
  induction d as [|[k' v'] d IH]; simpl; [done|].
  rewrite not_elem_of_cons. intros [Hne Hd].
  destruct (String.eqb_spec k' k) as [->|_]; [done|]. by rewrite IH.
Qed.

Lemma dict_get_app (d1 d2 : dict rt) (k : string) :
  dict_get (d1 ++ d2) k =
    match dict_get d1 k with Some v => Some v | None => dict_get d2 k end.
Proof.
  induction d1 as [|[k' v] d1 IH]; simpl; [done|].
  by destruct (String.eqb k' k).
Qed.

End Dicts.

(** ** The payload of [capture_logs] *)

Section Payload.
Import Py Rpc Spec LogTools.
Context {rt : PyRuntime}.

Lemma forwarded_keys (arguments : dict rt) (key k : string) :
  key ≠ k → k ∉ (forwarded arguments key).*1.
Proof.
  unfold forwarded. intros Hne.
  destruct (dict_get arguments key); simpl.
  - rewrite list_elem_of_singleton. congruence.
  - apply not_elem_of_nil.
Qed.

Lemma dict_get_forwarded (arguments : dict rt) (key k : string) :
  dict_get (forwarded arguments key) k =
    if decide (key = k) then dict_get arguments k else None.
Proof.
  unfold forwarded. destruct (decide (key = k)) as [->|Hne].
  - destruct (dict_get arguments k) eqn:Hk; simpl; [|done].
    by rewrite String.eqb_refl.
  - destruct (dict_get arguments key); simpl; [|done].
    by destruct (String.eqb_spec key k).
Qed.

(** One [if key in arguments] statement, when [params] has no [key] yet. *)
Lemma copy_param_fresh (arguments params : dict rt) (key : string) :
  key ∉ params.*1 →
  copy_param arguments key params = mret (params ++ forwarded arguments key).
Proof.
  intros Hfresh. unfold copy_param, dict_contains, getitem, forwarded.
  destruct (dict_get arguments key) as [v|].
  - by rewrite bind_ret_l, dict_set_fresh.
  - by rewrite (right_id_L [] (++)).
Qed.

Ltac fresh_key :=
  rewrite ?fmap_app, ?not_elem_of_app; repeat split;
  first [apply not_elem_of_nil | by apply forwarded_keys].

(** The parameter block computes the sparse payload, and cannot raise. *)
Lemma build_params_sparse (arguments : dict rt) :
  build_params arguments = mret (sparse_payload arguments).
Proof.
  unfold build_params.
  do 7 (rewrite copy_param_fresh by fresh_key; rewrite bind_ret_l).
  f_equal. unfold sparse_payload, capture_keys. simpl.
  by rewrite (right_id_L [] (++)), <- !(assoc_L (++)).
Qed.

Lemma dict_get_bind_forwarded (arguments : dict rt) (keys : list string) k :
  dict_get (keys ≫= forwarded arguments) k =
    if bool_decide (k ∈ keys) then dict_get arguments k else None.
Proof.
  induction keys as [|key keys IH]; [done|].
  change ((key :: keys) ≫= forwarded arguments)
    with (forwarded arguments key ++ (keys ≫= forwarded arguments)).
  rewrite dict_get_app, dict_get_forwarded, IH.
  destruct (decide (key = k)) as [->|Hne].
  - rewrite (bool_decide_eq_true_2 (k ∈ k :: keys)) by apply list_elem_of_here.
    destruct (dict_get arguments k); [done|]. by case_bool_decide.
  - apply (f_equal (λ b : bool, if b then dict_get arguments k else None)).
    apply bool_decide_ext. rewrite elem_of_cons.
    split; [by right|]. by intros [->|?].
Qed.

Lemma bind_forwarded_keys (arguments : dict rt) (keys : list string) :
  (keys ≫= forwarded arguments).*1
  = filter (λ k, is_Some (dict_get arguments k)) keys.
Proof.
  induction keys as [|key keys IH]; [done|].
  change ((key :: keys) ≫= forwarded arguments)
    with (forwarded arguments key ++ (keys ≫= forwarded arguments)).
  rewrite fmap_app, IH, filter_cons. unfold forwarded.
  by destruct (dict_get arguments key) as [v|].
Qed.

Lemma sparse_payload_NoDup (arguments : dict rt) :
  NoDup (sparse_payload arguments).*1.
Proof.
  unfold sparse_payload. rewrite bind_forwarded_keys.
  apply NoDup_filter. by apply (bool_decide_unpack _).
Qed.

Lemma quiet_append_line (line_obj : value rt) (output_lines : list string) :
  quiet (append_line line_obj output_lines).
Proof.
  unfold append_line.
  repeat (apply quiet_bind; [auto with quiet|intros ?]).
  destruct (truthy _); auto with quiet.
Qed.

Lemma quiet_format_report (result : dict rt) : quiet (format_report result).
Proof.
  unfold format_report.
  apply quiet_bind; [auto with quiet|intros returned].
  apply quiet_bind; [|intros out1].
  { destruct (truthy _); [|auto with quiet].
    apply quiet_bind; [auto with quiet|intros descs].
    apply quiet_for_each. auto with quiet. }
  apply quiet_bind; [|auto with quiet].
  destruct (truthy _); [|auto with quiet].
  apply quiet_bind; [auto with quiet|intros line_objs].
  apply quiet_for_each, quiet_append_line.
Qed.

End Payload.

(** ** Properties of the handlers *)

Section Properties.
Import Py Mcp Rpc Spec LoadManagerTools LogTools.
Context {rt : PyRuntime}.

(** Symbolic execution: [run] unfolds the monad inside the [try] body,
    [answer H] feeds it what the client does, [catch] settles the
    [try]/[except]. *)
Ltac run :=
  unfold mbind, eff_mbind, eff_bind, mret, eff_mret, eff_ret,
    call_with_retry, Logger.debug, Logger.error, raise;
  cbn [trace outcome].

Ltac answer H :=
  rewrite ?H; cbn [trace outcome error result code message success failure].

Ltac catch := unfold try_except; cbn [trace outcome].

Lemma substring_refl (s : string) : substring s s.
Proof.
  exists "", "". change (s = s +:+ "").
  induction s as [|a s IH]; [done|]. exact (f_equal (String a) IH).
Qed.

(** C1: without the key [slot_index] in the arguments, [load_save]
    returns the single block [Error: slot_index parameter is required]
    and its trace has no RPC call. *)
Theorem load_save_requires_slot_index
    (arguments : dict rt) (tcp_client : TcpClient rt) :
  dict_get arguments "slot_index" = None →
  outcome (handle_s1_load_save arguments tcp_client)
    = inr [text_block "Error: slot_index parameter is required"]
  ∧ rpc_calls (trace (handle_s1_load_save arguments tcp_client)) = [].
Proof.
  intros Hmissing. unfold handle_s1_load_save, get.
  rewrite Hmissing. by cbn.
Qed.

(** C2: when the client answers with a response whose error is
    populated with code [c] and message [m], each handler returns one
    block whose text is the line [Error: m (code: c)], so contains it,
    whatever the result field holds.  [load_save] gets a response only
    when [slot_index] is given. *)
Theorem rpc_error_is_rendered (arguments : dict rt) (tcp_client : TcpClient rt)
    (r : RpcResponse rt) (c : Z) (m : string) :
  returns tcp_client r →
  error r = Some {| code := c; message := m |} →
  let shown (o : eff (list TextContent)) :=
    ∃ t, outcome o = inr [text_block t]
         ∧ substring ("Error: " +:+ m +:+ " (code: " +:+ pretty c +:+ ")") t
         ∧ t = rpc_error_line c m in
  shown (handle_s1_list_saves arguments tcp_client)
  ∧ (slot_given arguments → shown (handle_s1_load_save arguments tcp_client))
  ∧ shown (handle_s1_capture_logs arguments tcp_client).
Proof.
  intros Hret Herr shown.
  assert (∀ o, outcome o = inr [text_block (rpc_error_line c m)] → shown o)
    as Hshown.
  { intros o Ho. exists (rpc_error_line c m).
    split; [done|]. split; [apply substring_refl|done]. }
  split; [|split].
  - apply Hshown.
    unfold handle_s1_list_saves. run. answer Hret. answer Herr. by catch.
  - unfold slot_given. intros Hgiven. apply Hshown.
    unfold handle_s1_load_save. rewrite Hgiven.
    run. answer Hret. answer Herr. by catch.
  - apply Hshown. unfold handle_s1_capture_logs.
    rewrite build_params_sparse, bind_ret_l.
    run. answer Hret. answer Herr. by catch.
Qed.

(** C3: when the client raises an exception with text [t], each handler
    ends with a value, the one block [Error: t], and gives the logger
    exactly one error record.  [load_save] calls the client only when
    [slot_index] is given. *)
Theorem client_exception_is_caught (arguments : dict rt)
    (tcp_client : TcpClient rt) (e : exn) :
  raises tcp_client e →
  let caught (name : string) (o : eff (list TextContent)) :=
    outcome o = inr [text_block ("Error: " +:+ exn_text e)]
    ∧ log_messages ERROR (trace o)
        = ["Error in " +:+ name +:+ ": " +:+ exn_text e] in
  caught "s1_list_saves" (handle_s1_list_saves arguments tcp_client)
  ∧ (slot_given arguments →
     caught "s1_load_save" (handle_s1_load_save arguments tcp_client))
  ∧ caught "s1_capture_logs" (handle_s1_capture_logs arguments tcp_client).
Proof.
  intros Hraise caught. split; [|split].
  - unfold caught, handle_s1_list_saves. run. answer Hraise. by catch.
  - unfold slot_given. intros Hgiven.
    unfold caught, handle_s1_load_save. rewrite Hgiven.
    run. answer Hraise. by catch.
  - unfold caught, handle_s1_capture_logs.
    rewrite build_params_sparse, bind_ret_l.
    run. answer Hraise. by catch.
Qed.

Lemma outcome_bind {A B} (m : eff A) (f : A → eff B) :
  outcome (m ≫= f)
  = match outcome m with inl e => inl e | inr a => outcome (f a) end.
Proof. unfold mbind, eff_mbind, eff_bind. by destruct (outcome m). Qed.

(** The one RPC call of [capture_logs], whatever the client does. *)
Lemma capture_logs_calls (arguments : dict rt) (tcp_client : TcpClient rt) :
  rpc_calls (trace (handle_s1_capture_logs arguments tcp_client))
  = [("capture_logs", sparse_payload arguments)].
Proof.
  unfold handle_s1_capture_logs. rewrite build_params_sparse, bind_ret_l. run.
  destruct (tcp_client "capture_logs" _) as [e|r]; cbn [trace outcome];
    [by catch|].
  destruct (error r) as [err|]; cbn [trace outcome]; [by catch|].
  destruct (result r) as [| | | | | |d]; cbn [trace outcome]; try by catch.
  pose proof (quiet_format_report d) as Hquiet. unfold quiet in Hquiet.
  destruct (format_report d) as [t [e|blocks]]; simpl in Hquiet; subst t;
    by catch.
Qed.

(** C4: [capture_logs] makes one RPC call, of method [capture_logs],
    whose payload holds exactly the keys of the seven parameters that the
    arguments hold, each with the caller's value, and no other key; no
    arguments give the empty payload, and [last_n_lines: 50, keyword:
    error] is forwarded as it is. *)
Theorem capture_logs_sparse_payload
    (arguments : dict rt) (tcp_client : TcpClient rt) :
  let sent (args : dict rt) :=
    rpc_calls (trace (handle_s1_capture_logs args tcp_client)) in
  (∃ params,
      sent arguments = [("capture_logs", params)]
      ∧ NoDup params.*1
      ∧ ∀ k, dict_get params k =
               if bool_decide (k ∈ capture_keys) then dict_get arguments k
               else None)
  ∧ sent [] = [("capture_logs", [])]
  ∧ sent [("last_n_lines", VInt 50); ("keyword", VStr "error")]
    = [("capture_logs", [("last_n_lines", VInt 50); ("keyword", VStr "error")])].
Proof.
  intros sent. unfold sent. rewrite !capture_logs_calls.
  split; [|done].
  exists (sparse_payload arguments).
  split; [done|]. split; [apply sparse_payload_NoDup|].
  intros k. apply dict_get_bind_forwarded.
Qed.

(** C6: on a successful response, [list_saves] returns one block: for a
    mapping with a [saves] entry, the line [Found {count} save game(s):]
    (the [count] field, or 0 when the mapping has none), a blank line
    and the JSON rendering of the whole result; otherwise the JSON
    rendering alone. *)
Theorem list_saves_success_text (arguments : dict rt)
    (tcp_client : TcpClient rt) (result : value rt) :
  returns tcp_client (success result) →
  (∀ d, result = VDict d → dict_contains d "saves" = true →
     outcome (handle_s1_list_saves arguments tcp_client)
     = inr [text_block ("Found "
                          +:+ match dict_get d "count" with
                              | Some count => py_str count
                              | None => "0"
                              end
                          +:+ " save game(s):" +:+ nl +:+ nl
                          +:+ json_dumps result)])
  ∧ ((∀ d, result = VDict d → dict_contains d "saves" = false) →
     outcome (handle_s1_list_saves arguments tcp_client)
     = inr [text_block (json_dumps result)]).
Proof.
  intros Hret.
  assert (handle_s1_list_saves arguments tcp_client
          = Eff [RpcCall "list_saves" []]
              (inr [text_block
                 match result with
                 | VDict d =>
                     if dict_contains d "saves" then
                       "Found " +:+ py_str (get d "count" (VInt 0))
                         +:+ " save game(s):" +:+ nl +:+ nl
                         +:+ json_dumps result
                     else json_dumps result
                 | _ => json_dumps result
                 end])) as ->.
  { unfold handle_s1_list_saves. run. answer Hret.
    destruct result as [| | | | | |d]; try by catch.
    destruct (dict_contains d "saves"); by catch. }
  split.
  - intros d -> Hsaves. rewrite Hsaves. unfold get.
    by destruct (dict_get d "count").
  - intros Hno. destruct result as [| | | | | |d]; try done.
    by rewrite (Hno d eq_refl).
Qed.

Lemma format_report_block (result : dict rt) :
  match outcome (format_report result) with
  | inl _ => True
  | inr blocks => ∃ t, blocks = [text_block t]
  end.
Proof.
  unfold format_report.
  rewrite outcome_bind. destruct (outcome (py_len _)); [done|].
  rewrite outcome_bind. destruct (outcome _); [done|].
  rewrite outcome_bind. destruct (outcome _); [done|].
  by eexists.
Qed.

(** C8: whatever the arguments and whatever the client does, each
    handler ends with a value that is a non-empty sequence of blocks. *)
Theorem output_never_empty (arguments : dict rt) (tcp_client : TcpClient rt) :
  let nonempty (o : eff (list TextContent)) :=
    ∃ block rest, outcome o = inr (block :: rest) in
  nonempty (handle_s1_list_saves arguments tcp_client)
  ∧ nonempty (handle_s1_load_save arguments tcp_client)
  ∧ nonempty (handle_s1_capture_logs arguments tcp_client).
Proof.
  intros nonempty. unfold nonempty. split; [|split].
  - unfold handle_s1_list_saves. run.
    destruct (tcp_client "list_saves" _) as [e|r]; cbn [trace outcome];
      [catch; by eexists _, _|].
    destruct (error r) as [err|]; cbn [trace outcome];
      [catch; by eexists _, _|].
    destruct (result r) as [| | | | | |d]; try (catch; by eexists _, _).
    destruct (dict_contains d "saves"); catch; by eexists _, _.
  - unfold handle_s1_load_save.
    destruct (is_none _); [catch; by eexists _, _|]. run.
    destruct (tcp_client "load_save" _) as [e|r]; cbn [trace outcome];
      [catch; by eexists _, _|].
    destruct (error r) as [err|]; cbn [trace outcome];
      [catch; by eexists _, _|].
    destruct (result r) as [| | | | | |d]; catch; by eexists _, _.
  - unfold handle_s1_capture_logs. rewrite build_params_sparse, bind_ret_l.
    run.
    destruct (tcp_client "capture_logs" _) as [e|r]; cbn [trace outcome];
      [catch; by eexists _, _|].
    destruct (error r) as [err|]; cbn [trace outcome];
      [catch; by eexists _, _|].
    destruct (result r) as [| | | | | |d]; cbn [trace outcome];
      try (catch; by eexists _, _).
    pose proof (format_report_block d) as Hblock.
    destruct (format_report d) as [t [e|blocks]]; cbn [trace outcome] in *.
    + catch. by eexists _, _.
    + destruct Hblock as [text ->]. catch. by eexists _, _.
Qed.

(** C9: two successful mapping results that agree on every key but
    [success] give [load_save] the same output. *)
Theorem load_save_ignores_success_field (arguments : dict rt)
    (client1 client2 : TcpClient rt) (result1 result2 : dict rt) :
  returns client1 (success (VDict result1)) →
  returns client2 (success (VDict result2)) →
  (∀ k, k ≠ "success" → dict_get result1 k = dict_get result2 k) →
  outcome (handle_s1_load_save arguments client1)
  = outcome (handle_s1_load_save arguments client2).
Proof.
  intros Hret1 Hret2 Hsame. unfold handle_s1_load_save.
  destruct (is_none _); [done|]. run. answer Hret1. answer Hret2.
  unfold get. rewrite !(Hsame "message"), !(Hsame "returned_to_menu") by done.
  by catch.
Qed.


(** C5, as amended: on a successful response to [load_save] whose
    result is a mapping, the one block is a check mark, a space and the
    [message] field (empty when absent), followed by the note on the
    return to the menu exactly when the [returned_to_menu] field is
    truthy; a result that is not a mapping is shown as its JSON
    rendering. *)
Theorem load_save_success_text (arguments : dict rt)
    (tcp_client : TcpClient rt) (result : value rt) :
  slot_given arguments →
  returns tcp_client (success result) →
  (∀ d, result = VDict d →
     outcome (handle_s1_load_save arguments tcp_client)
     = inr [text_block
              (if truthy (get d "returned_to_menu" (VBool false)) then
                 "✓ " +:+ py_str (get d "message" (VStr "")) +:+ nl
                   +:+ "  Note: Game was returned to menu before loading the save."
               else "✓ " +:+ py_str (get d "message" (VStr "")))])
  ∧ (is_dict result = false →
     outcome (handle_s1_load_save arguments tcp_client)
     = inr [text_block (json_dumps result)]).
Proof.
  unfold slot_given. intros Hgiven Hret.
  unfold handle_s1_load_save. rewrite Hgiven.
  run. answer Hret. split.
  - intros d ->. catch. by destruct (truthy _).
  - intros Hplain. destruct result; try done; by catch.
Qed.

Lemma returned_lines_get (result : dict rt) (lines : list (dict rt)) :
  returned_lines result = Some lines →
  get result "lines" (VList []) = VList (VDict <$> lines).
Proof.
  unfold returned_lines, get.
  destruct (dict_get result "lines") as [[| | | | |l|]|]; try done.
  - intros Hl. f_equal. revert lines Hl.
    induction l as [|v l IH]; intros lines.
    + by intros [= <-].
    + rewrite mapM_Some. intros Hall.
      apply Forall2_cons_inv_l in Hall as (d & ds & Hv & Hds & ->).
      destruct v; try done. injection Hv as ->.
      rewrite fmap_cons. f_equal. apply IH. by rewrite mapM_Some.
  - by intros [= <-].
Qed.

Lemma applied_filters_get (result : dict rt) (filters : list (value rt)) :
  applied_filters result = Some filters →
  get result "filters_applied" (VList []) = VList filters.
Proof.
  unfold applied_filters, get.
  destruct (dict_get result "filters_applied") as [[| | | | |l|]|]; try done.
  - by intros [= <-].
  - by intros [= <-].
Qed.

(** One turn of the loop over the lines appends the rendering of the
    line. *)
Lemma append_line_render (line : dict rt) (output_lines : list string) :
  append_line (VDict line) output_lines
  = mret (output_lines ++ [render_line line]).
Proof.
  unfold append_line, py_get, append. rewrite !bind_ret_l.
  unfold render_line, get.
  destruct (dict_get line "timestamp") as [stamp|]; [|done].
  by destruct (truthy stamp).
Qed.

Lemma for_each_lines (lines : list (dict rt)) (output_lines : list string) :
  for_each (VDict <$> lines) output_lines append_line
  = mret (output_lines ++ map render_line lines).
Proof.
  revert output_lines.
  induction lines as [|line lines IH]; intros output_lines;
    cbn [for_each fmap list_fmap map].
  - by rewrite (right_id_L [] (++)).
  - by rewrite append_line_render, bind_ret_l, IH, <- (assoc_L (++)).
Qed.

Lemma warning_block_get (result : dict rt) :
  (if truthy (get result "warning" VNone) then
     [] ++ ["⚠️ Warning: " +:+ py_str (get result "warning" VNone) +:+ nl]
   else [])
  = warning_block result.
Proof.
  unfold warning_block, get.
  destruct (dict_get result "warning") as [w|]; [|done].
  by destruct (truthy w).
Qed.

(** The formatting block computes the report of the spec, on results
    whose lines are mappings and whose filters are a list. *)
Lemma format_report_spec (result : dict rt) filters lines :
  applied_filters result = Some filters →
  returned_lines result = Some lines →
  format_report result
  = mret [text_block (String.concat nl (report result filters lines))].
Proof.
  intros Hfilters%applied_filters_get Hlines%returned_lines_get.
  unfold format_report. rewrite Hfilters, Hlines.
  cbn [py_len]. rewrite bind_ret_l, length_fmap.
  unfold append. rewrite warning_block_get.
  unfold report, summary_block, filters_block, lines_block.
  destruct filters as [|desc filters]; cbn [truthy py_iter];
    rewrite ?bind_ret_l, ?for_each_append, ?bind_ret_l.
  - destruct lines as [|line lines]; cbn [truthy py_iter fmap list_fmap].
    + by rewrite ?bind_ret_l, <- !(assoc_L (++)).
    + rewrite ?bind_ret_l.
      change (VDict line :: (VDict <$> lines)) with (VDict <$> (line :: lines)).
      by rewrite for_each_lines, ?bind_ret_l, <- !(assoc_L (++)).
  - destruct lines as [|line lines]; cbn [truthy py_iter fmap list_fmap].
    + by rewrite ?bind_ret_l, <- !(assoc_L (++)).
    + rewrite ?bind_ret_l.
      change (VDict line :: (VDict <$> lines)) with (VDict <$> (line :: lines)).
      by rewrite for_each_lines, ?bind_ret_l, <- !(assoc_L (++)).
Qed.

(** C7, as amended: on a successful response whose result is a mapping
    in which [lines] is absent or a list of mappings and
    [filters_applied] is absent or a list, [capture_logs] returns one
    block whose lines are, in this order: the warning line when the
    [warning] field is present and truthy; the summary of the lines in
    the file, after filtering and returned; a bullet per applied filter
    when there is one; and the lines in the server's order, each with
    its timestamp when that is present and truthy, or the notice that no
    line matched when there is none. *)
Theorem capture_logs_report (arguments : dict rt) (tcp_client : TcpClient rt)
    (result : dict rt) (filters : list (value rt)) (lines : list (dict rt)) :
  returns tcp_client (success (VDict result)) →
  applied_filters result = Some filters →
  returned_lines result = Some lines →
  outcome (handle_s1_capture_logs arguments tcp_client)
  = inr [text_block
           (String.concat nl
              (warning_block result ++ summary_block result (length lines)
                 ++ filters_block filters ++ lines_block lines))].
Proof.
  intros Hret Hfilters Hlines. unfold handle_s1_capture_logs.
  rewrite build_params_sparse, bind_ret_l. run. answer Hret.
  rewrite (format_report_spec result filters lines) by done.
  by catch.
Qed.

(** ** Further properties of the handlers *)

Lemma list_saves_calls (arguments : dict rt) (tcp_client : TcpClient rt) :
  rpc_calls (trace (handle_s1_list_saves arguments tcp_client))
  = [("list_saves", [])].
Proof.
  unfold handle_s1_list_saves. run.
  destruct (tcp_client "list_saves" _) as [e|r]; cbn [trace outcome];
    [by catch|].
  destruct (error r) as [err|]; cbn [trace outcome]; [by catch|].
  destruct (result r) as [| | | | | |d]; try by catch.
  destruct (dict_contains d "saves"); by catch.
Qed.

Lemma load_save_calls (arguments : dict rt) (tcp_client : TcpClient rt) :
  rpc_calls (trace (handle_s1_load_save arguments tcp_client))
  = if supplied arguments "slot_index" then
      [("load_save", [("slot_index", get arguments "slot_index" VNone)])]
    else [].
Proof.
  unfold handle_s1_load_save, supplied.
  destruct (is_none _); [by catch|]. run.
  destruct (tcp_client "load_save" _) as [e|r]; cbn [trace outcome];
    [by catch|].
  destruct (error r) as [err|]; cbn [trace outcome]; [by catch|].
  destruct (result r) as [| | | | | |d]; by catch.
Qed.

(** X1: [list_saves] makes exactly one RPC call, of method [list_saves]
    with the empty payload, whatever the client does, and its whole run
    is the same for any two argument mappings. *)
Theorem list_saves_request (arguments arguments' : dict rt)
    (tcp_client : TcpClient rt) :
  rpc_calls (trace (handle_s1_list_saves arguments tcp_client))
    = [("list_saves", [])]
  ∧ handle_s1_list_saves arguments tcp_client
    = handle_s1_list_saves arguments' tcp_client.
Proof. split; [apply list_saves_calls|done]. Qed.

(** X2: [load_save] calls the client exactly when [slot_index] is in
    the arguments with a value other than [None], and then once, with
    method [load_save] and the payload that holds that value as it came:
    no type or range is checked. *)
Theorem load_save_request (arguments : dict rt) (tcp_client : TcpClient rt) :
  rpc_calls (trace (handle_s1_load_save arguments tcp_client))
  = match dict_get arguments "slot_index" with
    | Some slot =>
        if is_none slot then [] else [("load_save", [("slot_index", slot)])]
    | None => []
    end.
Proof.
  rewrite load_save_calls. unfold supplied, get.
  destruct (dict_get arguments "slot_index") as [slot|]; [|done].
  by destruct (is_none slot).
Qed.

(** X3: [load_save] ends at its validation, with the fixed text and
    without any event, exactly when [slot_index] is missing or [None]. *)
Theorem load_save_short_circuit (arguments : dict rt)
    (tcp_client : TcpClient rt) :
  handle_s1_load_save arguments tcp_client
    = Eff [] (inr [text_block "Error: slot_index parameter is required"])
  ↔ supplied arguments "slot_index" = false.
Proof.
  split.
  - intros Hrun. pose proof (load_save_calls arguments tcp_client) as Hcalls.
    rewrite Hrun in Hcalls. by destruct (supplied arguments "slot_index").
  - unfold supplied, handle_s1_load_save.
    destruct (is_none _); [by catch|done].
Qed.

(** X4: the two save tools give the logger an error record exactly when
    the client raised; a remote error or a success is not logged. *)
Theorem save_tools_log_client_failures (arguments : dict rt)
    (tcp_client : TcpClient rt) :
  log_messages ERROR (trace (handle_s1_list_saves arguments tcp_client))
    = match tcp_client "list_saves" [] with
      | inl e => ["Error in s1_list_saves: " +:+ exn_text e]
      | inr _ => []
      end
  ∧ log_messages ERROR (trace (handle_s1_load_save arguments tcp_client))
    = if supplied arguments "slot_index" then
        match tcp_client "load_save"
                [("slot_index", get arguments "slot_index" VNone)] with
        | inl e => ["Error in s1_load_save: " +:+ exn_text e]
        | inr _ => []
        end
      else [].
Proof.
  split.
  - unfold handle_s1_list_saves. run.
    destruct (tcp_client "list_saves" _) as [e|r]; cbn [trace outcome];
      [by catch|].
    destruct (error r) as [err|]; cbn [trace outcome]; [by catch|].
    destruct (result r) as [| | | | | |d]; try by catch.
    destruct (dict_contains d "saves"); by catch.
  - unfold handle_s1_load_save, supplied.
    destruct (is_none _); [by catch|]. run.
    destruct (tcp_client "load_save" _) as [e|r]; cbn [trace outcome];
      [by catch|].
    destruct (error r) as [err|]; cbn [trace outcome]; [by catch|].
    destruct (result r) as [| | | | | |d]; by catch.
Qed.

(** X5: every run of [capture_logs] starts with a debug record that
    shows the payload, followed by the RPC call with that payload; after
    them comes nothing, or one error record whose text is the one
    shown to the caller. *)
Theorem capture_logs_trace (arguments : dict rt) (tcp_client : TcpClient rt) :
  ∃ params rest,
    trace (handle_s1_capture_logs arguments tcp_client)
      = LogRecord DEBUG ("Capturing logs with params: " +:+ py_str (VDict params))
          :: RpcCall "capture_logs" params :: rest
    ∧ (rest = []
       ∨ ∃ t, rest = [LogRecord ERROR ("Error in s1_capture_logs: " +:+ t)]
              ∧ outcome (handle_s1_capture_logs arguments tcp_client)
                = inr [text_block ("Error: " +:+ t)]).
Proof.
  exists (sparse_payload arguments).
  unfold handle_s1_capture_logs. rewrite build_params_sparse, bind_ret_l. run.
  destruct (tcp_client "capture_logs" _) as [e|r]; cbn [trace outcome].
  { catch. eexists. split; [done|]. right. by eexists. }
  destruct (error r) as [err|]; cbn [trace outcome].
  { catch. eexists. split; [done|]. by left. }
  destruct (result r) as [| | | | | |d]; cbn [trace outcome];
    try (catch; eexists; split; [done|]; by left).
  pose proof (quiet_format_report d) as Hquiet. unfold quiet in Hquiet.
  destruct (format_report d) as [t [e|blocks]]; simpl in Hquiet; subst t; catch.
  - eexists. split; [done|]. right. by eexists.
  - eexists. split; [done|]. by left.
Qed.

(** What the handler makes of a formatting that raises. *)
Lemma capture_logs_format_raises (arguments : dict rt)
    (tcp_client : TcpClient rt) (result : dict rt) (e : exn) :
  returns tcp_client (success (VDict result)) →
  outcome (format_report result) = inl e →
  outcome (handle_s1_capture_logs arguments tcp_client)
    = inr [text_block ("Error: " +:+ exn_text e)]
  ∧ log_messages ERROR (trace (handle_s1_capture_logs arguments tcp_client))
    = ["Error in s1_capture_logs: " +:+ exn_text e].
Proof.
  intros Hret Hraise. unfold handle_s1_capture_logs.
  rewrite build_params_sparse, bind_ret_l. run. answer Hret.
  pose proof (quiet_format_report result) as Hquiet. unfold quiet in Hquiet.
  destruct (format_report result) as [t o]; simpl in Hquiet, Hraise; subst t o.
  by catch.
Qed.

(** X6: when the [lines] of a successful mapping are a value without a
    length ([None], a boolean or a number), [capture_logs] returns the
    text of the [TypeError] of [len] and logs it once, whatever the
    other fields hold. *)
Theorem capture_logs_unsized_lines (arguments : dict rt)
    (tcp_client : TcpClient rt) (result : dict rt) (lines : value rt) :
  returns tcp_client (success (VDict result)) →
  dict_get result "lines" = Some lines →
  sized lines = false →
  outcome (handle_s1_capture_logs arguments tcp_client)
    = inr [text_block ("Error: object of type '" +:+ type_name lines
                         +:+ "' has no len()")]
  ∧ log_messages ERROR (trace (handle_s1_capture_logs arguments tcp_client))
    = ["Error in s1_capture_logs: object of type '" +:+ type_name lines
         +:+ "' has no len()"].
Proof.
  intros Hret Hlines Hunsized.
  apply (capture_logs_format_raises arguments tcp_client result
           (Exn "TypeError"
              ("object of type '" +:+ type_name lines +:+ "' has no len()")));
    [done|].
  assert (get result "lines" (VList []) = lines) as Hget
    by (unfold get; by rewrite Hlines).
  unfold format_report. rewrite Hget, outcome_bind.
  by destruct lines.
Qed.

(** The loop over the lines stops at the first entry that is not a
    mapping. *)
Lemma for_each_lines_stop (good : list (dict rt)) (bad : value rt)
    (rest : list (value rt)) (output_lines : list string) :
  is_dict bad = false →
  for_each ((VDict <$> good) ++ bad :: rest) output_lines append_line
  = raise (Exn "AttributeError"
             ("'" +:+ type_name bad +:+ "' object has no attribute 'get'")).
Proof.
  intros Hbad. revert output_lines.
  induction good as [|line good IH]; intros output_lines.
  - cbn [fmap list_fmap app for_each]. unfold append_line.
    by destruct bad.
  - cbn [fmap list_fmap app for_each].
    by rewrite append_line_render, bind_ret_l, IH.
Qed.

(** X7: when the [lines] of a successful mapping hold an entry that is
    not a mapping, [capture_logs] returns no part of the report: the
    block is the text of the [AttributeError] for the first such entry,
    logged once. *)
Theorem capture_logs_rejects_non_mapping_line (arguments : dict rt)
    (tcp_client : TcpClient rt) (result : dict rt) (filters : list (value rt))
    (good : list (dict rt)) (bad : value rt) (rest : list (value rt)) :
  returns tcp_client (success (VDict result)) →
  applied_filters result = Some filters →
  dict_get result "lines" = Some (VList ((VDict <$> good) ++ bad :: rest)) →
  is_dict bad = false →
  outcome (handle_s1_capture_logs arguments tcp_client)
    = inr [text_block ("Error: '" +:+ type_name bad
                         +:+ "' object has no attribute 'get'")]
  ∧ log_messages ERROR (trace (handle_s1_capture_logs arguments tcp_client))
    = ["Error in s1_capture_logs: '" +:+ type_name bad
         +:+ "' object has no attribute 'get'"].
Proof.
  intros Hret Hfilters%applied_filters_get Hlines Hbad.
  apply (capture_logs_format_raises arguments tcp_client result
           (Exn "AttributeError"
              ("'" +:+ type_name bad +:+ "' object has no attribute 'get'")));
    [done|].
  assert (get result "lines" (VList [])
          = VList ((VDict <$> good) ++ bad :: rest)) as Hget
    by (unfold get; by rewrite Hlines).
  unfold format_report. rewrite Hfilters, Hget.
  cbn [py_len]. rewrite bind_ret_l.
  assert (truthy (VList ((VDict <$> good) ++ bad :: rest)) = true) as ->
    by by destruct good.
  unfold append.
  destruct filters as [|desc filters]; cbn [truthy py_iter];
    rewrite ?bind_ret_l, ?for_each_append, ?bind_ret_l;
    by rewrite for_each_lines_stop.
Qed.

(** X8: in every run each handler returns exactly one block, and its
    type is [text]. *)
Theorem handlers_return_one_text_block (arguments : dict rt)
    (tcp_client : TcpClient rt) :
  let one_text (o : eff (list TextContent)) :=
    ∃ t, outcome o = inr [{| type := "text"; text := t |}] in
  one_text (handle_s1_list_saves arguments tcp_client)
  ∧ one_text (handle_s1_load_save arguments tcp_client)
  ∧ one_text (handle_s1_capture_logs arguments tcp_client).
Proof.
  intros one_text. unfold one_text. split; [|split].
  - unfold handle_s1_list_saves. run.
    destruct (tcp_client "list_saves" _) as [e|r]; cbn [trace outcome];
      [catch; by eexists|].
    destruct (error r) as [err|]; cbn [trace outcome]; [catch; by eexists|].
    destruct (result r) as [| | | | | |d]; try (catch; by eexists).
    destruct (dict_contains d "saves"); catch; by eexists.
  - unfold handle_s1_load_save.
    destruct (is_none _); [catch; by eexists|]. run.
    destruct (tcp_client "load_save" _) as [e|r]; cbn [trace outcome];
      [catch; by eexists|].
    destruct (error r) as [err|]; cbn [trace outcome]; [catch; by eexists|].
    destruct (result r) as [| | | | | |d]; catch; by eexists.
  - unfold handle_s1_capture_logs. rewrite build_params_sparse, bind_ret_l.
    run.
    destruct (tcp_client "capture_logs" _) as [e|r]; cbn [trace outcome];
      [catch; by eexists|].
    destruct (error r) as [err|]; cbn [trace outcome]; [catch; by eexists|].
    destruct (result r) as [| | | | | |d]; cbn [trace outcome];
      try (catch; by eexists).
    pose proof (format_report_block d) as Hblock.
    destruct (format_report d) as [t [e|blocks]]; cbn [trace outcome] in *.
    + catch. by eexists.
    + destruct Hblock as [text ->]. catch. by eexists.
Qed.

(** X9: of a successful mapping result [load_save] shows only the text
    of [message] and the truth value of [returned_to_menu]: two results
    that agree on these give the same output, an absent field counting
    as its default. *)
Theorem load_save_reads_two_fields (arguments : dict rt)
    (client1 client2 : TcpClient rt) (result1 result2 : dict rt) :
  returns client1 (success (VDict result1)) →
  returns client2 (success (VDict result2)) →
  py_str (get result1 "message" (VStr ""))
    = py_str (get result2 "message" (VStr "")) →
  truthy (get result1 "returned_to_menu" (VBool false))
    = truthy (get result2 "returned_to_menu" (VBool false)) →
  outcome (handle_s1_load_save arguments client1)
  = outcome (handle_s1_load_save arguments client2).
Proof.
  intros Hret1 Hret2 Hmessage Hmenu. unfold handle_s1_load_save.
  destruct (is_none _); [done|]. run. answer Hret1. answer Hret2.
  rewrite Hmessage, Hmenu. by catch.
Qed.

Lemma sparse_payload_ext (arguments1 arguments2 : dict rt) :
  (∀ k, k ∈ capture_keys → dict_get arguments1 k = dict_get arguments2 k) →
  sparse_payload arguments1 = sparse_payload arguments2.
Proof.
  intros Hsame. unfold sparse_payload.
  induction capture_keys as [|key keys IH]; [done|].
  change ((key :: keys) ≫= forwarded ?a)
    with (forwarded a key ++ (keys ≫= forwarded a)).
  rewrite IH by (intros k Hk; apply Hsame; by right).
  unfold forwarded. by rewrite (Hsame key) by by left.
Qed.

(** X10: the run of [capture_logs] depends on the arguments only
    through the seven parameters: argument mappings that agree on them,
    in any order and with any other keys, give the same events and the
    same output. *)
Theorem capture_logs_reads_seven_keys (arguments1 arguments2 : dict rt)
    (tcp_client : TcpClient rt) :
  (∀ k, k ∈ capture_keys → dict_get arguments1 k = dict_get arguments2 k) →
  handle_s1_capture_logs arguments1 tcp_client
  = handle_s1_capture_logs arguments2 tcp_client.
Proof.
  intros Hsame%sparse_payload_ext. unfold handle_s1_capture_logs.
  by rewrite !build_params_sparse, Hsame.
Qed.

(** X11: the tools the two catalogs advertise are, in the same order,
    the keys of the two handler mappings, and no name is advertised
    twice across the catalogs. *)
Theorem catalogs_match_handlers (tcp_client : TcpClient rt) :
  name <$> get_load_manager_tools tcp_client
    = (LoadManagerTools.TOOL_HANDLERS (rt:=rt)).*1
  ∧ name <$> get_log_tools tcp_client = (LogTools.TOOL_HANDLERS (rt:=rt)).*1
  ∧ NoDup (name <$> (get_load_manager_tools tcp_client
                       ++ get_log_tools tcp_client)).
Proof.
  split; [done|]. split; [done|].
  by apply (bool_decide_unpack _).
Qed.

(** X12: [capture_logs] forwards a key of the arguments exactly when the
    input schema of its tool declares it, with the caller's value, and
    the payload lists the forwarded keys in the order of the schema. *)
Theorem capture_logs_forwards_declared (arguments : dict rt)
    (tcp_client : TcpClient rt) (tool : Tool rt) :
  tool ∈ get_log_tools tcp_client →
  ∃ params,
    rpc_calls (trace (handle_s1_capture_logs arguments tcp_client))
      = [("capture_logs", params)]
    ∧ (∀ k, dict_get params k =
              if bool_decide (k ∈ schema_properties (inputSchema tool))
              then dict_get arguments k else None)
    ∧ params.*1 = filter (λ k, is_Some (dict_get arguments k))
                    (schema_properties (inputSchema tool)).
Proof.
  intros ->%list_elem_of_singleton.
  exists (sparse_payload arguments). split; [apply capture_logs_calls|].
  split.
  - intros k. apply dict_get_bind_forwarded.
  - apply bind_forwarded_keys.
Qed.

(** X13: for every advertised tool, the handler registered under its
    name leaves the client uncalled exactly when the arguments lack one
    of the parameters the tool's schema requires, or hold [None] for
    it. *)
Theorem handlers_enforce_required (arguments : dict rt)
    (tcp_client : TcpClient rt) (tool : Tool rt)
    (handler : dict rt → TcpClient rt → eff (list TextContent)) :
  tool ∈ get_load_manager_tools tcp_client ++ get_log_tools tcp_client →
  (name tool, handler)
    ∈ LoadManagerTools.TOOL_HANDLERS ++ LogTools.TOOL_HANDLERS →
  rpc_calls (trace (handler arguments tcp_client)) = []
  ↔ ∃ k, k ∈ schema_required (inputSchema tool)
         ∧ supplied arguments k = false.
Proof.
  unfold get_load_manager_tools, get_log_tools,
    LoadManagerTools.TOOL_HANDLERS, LogTools.TOOL_HANDLERS.
  cbn [app]. rewrite !elem_of_cons, !elem_of_nil.
  intros [->|[->|[->|[]]]] [Heq|[Heq|[Heq|[]]]]; cbn [name] in Heq;
    simplify_eq;
    cbn [inputSchema schema_required dict_get get String.eqb Ascii.eqb
         Bool.eqb omap list_omap].
  - rewrite list_saves_calls. split; [done|]. by intros (k & []%elem_of_nil & _).
  - rewrite load_save_calls. split.
    + destruct (supplied arguments "slot_index") eqn:Hslot; [done|].
      intros _. exists "slot_index". split; [by left|done].
    + intros (k & ->%list_elem_of_singleton & ->). done.
  - rewrite capture_logs_calls. split; [done|].
    by intros (k & []%elem_of_nil & _).
Qed.

Lemma str_chars_nil (s : string) : str_chars s = [] → s = "".
Proof.
  destruct s as [|a s]; [done|]. unfold str_chars. cbn [str_chars_aux].
  destruct (str_chars_aux s) as [pending cs].
  by destruct (is_continuation a).
Qed.

(** The loop over the filters, for any value it can meet. *)
Lemma filters_loop (f : value rt) (filters : list (value rt))
    (head : list string) :
  loop_items f = Some filters →
  (if truthy f then
     descs ← py_iter f;
     for_each descs (head ++ [nl +:+ "🔍 Filters Applied:"])
       (λ filter_desc output_lines,
          mret (output_lines ++ ["  • " +:+ py_str filter_desc]))
   else mret head)
  = mret (head ++ filters_block filters).
Proof.
  assert (∀ items : list (value rt), items ≠ [] →
    (descs ← mret items;
     for_each descs (head ++ [nl +:+ "🔍 Filters Applied:"])
       (λ filter_desc output_lines,
          mret (output_lines ++ ["  • " +:+ py_str filter_desc])))
    = mret (head ++ filters_block items)) as Hloop.
  { intros items Hitems. rewrite bind_ret_l, for_each_append.
    destruct items; [done|]. unfold filters_block.
    by rewrite <- (assoc_L (++)). }
  assert (mret head = mret (head ++ filters_block []) :> eff (list string))
    as Hnone by (cbn [filters_block]; by rewrite (right_id_L [] (++))).
  unfold loop_items.
  destruct f as [|b|n|x|s|l|d]; cbn [truthy py_iter].
  - by intros [= <-].
  - destruct b; [done|]. by intros [= <-].
  - destruct (n =? 0)%Z; [|done]. by intros [= <-].
  - destruct (float_bool x); [done|]. by intros [= <-].
  - intros [= <-]. destruct (String.eqb_spec s "") as [->|Hs]; [done|].
    apply Hloop. intros Hnil%fmap_nil_inv. by apply str_chars_nil in Hnil.
  - intros [= <-]. destruct l; [done|]. by apply Hloop.
  - intros [= <-]. destruct d; [done|]. by apply Hloop.
Qed.

(** X14: the report of C7 holds for every [filters_applied] the loop can
    take: a falsy value gives no filter block, a string is bulleted
    character by character and a mapping key by key. *)
Theorem capture_logs_report_any_filters (arguments : dict rt)
    (tcp_client : TcpClient rt) (result : dict rt)
    (filters : list (value rt)) (lines : list (dict rt)) :
  returns tcp_client (success (VDict result)) →
  loop_items (get result "filters_applied" (VList [])) = Some filters →
  returned_lines result = Some lines →
  outcome (handle_s1_capture_logs arguments tcp_client)
  = inr [text_block
           (String.concat nl
              (warning_block result ++ summary_block result (length lines)
                 ++ filters_block filters ++ lines_block lines))].
Proof.
  intros Hret Hfilters Hlines%returned_lines_get.
  unfold handle_s1_capture_logs.
  rewrite build_params_sparse, bind_ret_l. run. answer Hret.
  assert (format_report result
          = Eff [] (inr [text_block
              (String.concat nl
                 (warning_block result ++ summary_block result (length lines)
                    ++ filters_block filters ++ lines_block lines))])) as ->;
    [|by catch].
  unfold format_report. rewrite Hlines.
  cbn [py_len]. rewrite bind_ret_l, length_fmap.
  unfold append. rewrite warning_block_get.
  rewrite (filters_loop _ filters) by done. rewrite bind_ret_l.
  unfold summary_block, lines_block.
  destruct lines as [|line lines]; cbn [truthy py_iter fmap list_fmap].
  - by rewrite ?bind_ret_l, <- !(assoc_L (++)).
  - rewrite ?bind_ret_l.
    change (VDict line :: (VDict <$> lines)) with (VDict <$> (line :: lines)).
    by rewrite for_each_lines, ?bind_ret_l, <- !(assoc_L (++)).
Qed.

(** X15: when [lines] has a length and [filters_applied] is a truthy
    value that cannot be walked (a number or [True]), [capture_logs]
    returns the text of the [TypeError] of the loop and logs it once. *)
Theorem capture_logs_rejects_scalar_filters (arguments : dict rt)
    (tcp_client : TcpClient rt) (result : dict rt) (filters : value rt) :
  returns tcp_client (success (VDict result)) →
  sized (get result "lines" (VList [])) = true →
  dict_get result "filters_applied" = Some filters →
  loop_items filters = None →
  outcome (handle_s1_capture_logs arguments tcp_client)
    = inr [text_block ("Error: '" +:+ type_name filters
                         +:+ "' object is not iterable")]
  ∧ log_messages ERROR (trace (handle_s1_capture_logs arguments tcp_client))
    = ["Error in s1_capture_logs: '" +:+ type_name filters
         +:+ "' object is not iterable"].
Proof.
  intros Hret Hsized Hfilters Hscalar.
  apply (capture_logs_format_raises arguments tcp_client result
           (Exn "TypeError"
              ("'" +:+ type_name filters +:+ "' object is not iterable")));
    [done|].
  assert (get result "filters_applied" (VList []) = filters) as Hget
    by (unfold get; by rewrite Hfilters).
  unfold format_report. rewrite Hget.
  assert (∃ n, py_len (get result "lines" (VList [])) = mret n) as [n ->]
    by (destruct (get result "lines" (VList [])); try done; by eexists).
  rewrite bind_ret_l, outcome_bind. unfold loop_items in Hscalar.
  destruct filters as [|b|n'|x| | |]; try done; cbn [truthy] in *.
  - by destruct b.
  - by destruct (n' =? 0)%Z.
  - by destruct (float_bool x).
Qed.

End Properties.



(** ** The handlers at concrete inputs, on the CPython runtime *)

Section Runs.
Import Py Mcp Rpc Spec Samples LoadManagerTools LogTools.

#[local] Existing Instance CPython.runtime.

Lemma always_returns (r : RpcResponse CPython.runtime) :
  returns (always (inr r)) r.
Proof. intros method params. reflexivity. Defined.

Lemma always_raises (e : exn) : raises (always (inl e)) e.
Proof. intros method params. reflexivity. Defined.

Example list_saves_three :
  handle_s1_list_saves [] (always (inr (success three_saves)))
  = Eff [RpcCall "list_saves" []]
      (inr [text_block
              ("Found 3 save game(s):" +:+ nl +:+ nl
               +:+ "{" +:+ nl
               +:+ "  " +:+ CPython.encode_basestring_ascii "saves" +:+ ": [" +:+ nl
               +:+ "    " +:+ CPython.encode_basestring_ascii "Farm" +:+ "," +:+ nl
               +:+ "    " +:+ CPython.encode_basestring_ascii "Town" +:+ "," +:+ nl
               +:+ "    " +:+ CPython.encode_basestring_ascii "Lab" +:+ nl
               +:+ "  ]," +:+ nl
               +:+ "  " +:+ CPython.encode_basestring_ascii "count" +:+ ": 3" +:+ nl
               +:+ "}")]).
Proof. reflexivity. Qed.

Example load_save_slot_2 :
  handle_s1_load_save [("slot_index", VInt 2)]
    (always (inr (success (VDict [("success", VBool true);
                                  ("message", VStr "Loaded slot 2");
                                  ("returned_to_menu", VBool true)]))))
  = Eff [RpcCall "load_save" [("slot_index", VInt 2)]]
      (inr [text_block
              ("✓ Loaded slot 2" +:+ nl
               +:+ "  Note: Game was returned to menu before loading the save.")]).
Proof. reflexivity. Qed.

Example load_save_stays_in_menu :
  outcome (handle_s1_load_save [("slot_index", VInt 0)]
             (always (inr (success (VDict [("success", VBool true);
                                           ("message", VStr "Loaded slot 0");
                                           ("returned_to_menu", VBool false)])))))
  = inr [text_block "✓ Loaded slot 0"].
Proof. reflexivity. Qed.

Example capture_logs_two_lines :
  handle_s1_capture_logs [("last_n_lines", VInt 50); ("keyword", VStr "error")]
    (always (inr (success (VDict
       [("lines", VList [VDict [("line_number", VInt 7);
                                ("timestamp", VStr "12:30:45");
                                ("content", VStr "error: no save")];
                         VDict [("line_number", VInt 9);
                                ("content", VStr "error again")]]);
        ("total_lines_in_file", VInt 120);
        ("filtered_count", VInt 2);
        ("filters_applied", VList [VStr "keyword: error"])]))))
  = Eff [LogRecord DEBUG
           "Capturing logs with params: {'last_n_lines': 50, 'keyword': 'error'}";
         RpcCall "capture_logs"
           [("last_n_lines", VInt 50); ("keyword", VStr "error")]]
      (inr [text_block
              (String.concat nl
                 ["📊 Log Summary:";
                  "  • Total lines in file: 120";
                  "  • Lines after filtering: 2";
                  "  • Lines returned: 2";
                  nl +:+ "🔍 Filters Applied:";
                  "  • keyword: error";
                  nl +:+ "📝 Log Lines:" +:+ nl;
                  "[Line 7] [12:30:45] error: no save";
                  "[Line 9] error again"])]).
Proof. reflexivity. Qed.

(** A line that is not a mapping ends the formatting with an exception,
    which the handler reports. *)
Example capture_logs_bad_line :
  handle_s1_capture_logs [] (always (inr (success (VDict [("lines", VList [VStr "x"])]))))
  = Eff [LogRecord DEBUG "Capturing logs with params: {}";
         RpcCall "capture_logs" [];
         LogRecord ERROR
           "Error in s1_capture_logs: 'str' object has no attribute 'get'"]
      (inr [text_block "Error: 'str' object has no attribute 'get'"]).
Proof. reflexivity. Qed.

End Runs.

(** ** The theorems at concrete inputs *)

Section Instances.
Import Py Mcp Rpc Spec Samples LoadManagerTools LogTools.

#[local] Existing Instance CPython.runtime.

Lemma load_save_requires_slot_index_witness :
  dict_get [("slot", VInt 1)] "slot_index" = None
  ∧ outcome (handle_s1_load_save [("slot", VInt 1)]
               (always (inr (success VNone))))
    = inr [text_block "Error: slot_index parameter is required"]
  ∧ rpc_calls (trace (handle_s1_load_save [("slot", VInt 1)]
                        (always (inr (success VNone))))) = [].
Proof.
  split; [reflexivity|].
  apply (load_save_requires_slot_index [("slot", VInt 1)]). reflexivity.
Defined.

Lemma rpc_error_is_rendered_witness :
  slot_given [("slot_index", VInt 4)]
  ∧ ∃ t, outcome (handle_s1_load_save [("slot_index", VInt 4)]
                    (always (inr (failure (-32000) "Save slot not found"))))
         = inr [text_block t]
         ∧ substring "Error: Save slot not found (code: -32000)" t
         ∧ t = "Error: Save slot not found (code: -32000)".
Proof.
  split; [reflexivity|].
  refine (proj1 (proj2 (rpc_error_is_rendered [("slot_index", VInt 4)]
           (always (inr (failure (-32000) "Save slot not found")))
           (failure (-32000) "Save slot not found")
           (-32000) "Save slot not found"
           (always_returns _) eq_refl)) _).
  reflexivity.
Defined.

Lemma client_exception_is_caught_witness :
  slot_given [("slot_index", VInt 0)]
  ∧ outcome (handle_s1_load_save [("slot_index", VInt 0)]
               (always (inl (Exn "ConnectionError" "Not connected"))))
    = inr [text_block "Error: Not connected"]
  ∧ log_messages ERROR
      (trace (handle_s1_load_save [("slot_index", VInt 0)]
                (always (inl (Exn "ConnectionError" "Not connected")))))
    = ["Error in s1_load_save: Not connected"].
Proof.
  split; [reflexivity|].
  refine (proj1 (proj2 (client_exception_is_caught [("slot_index", VInt 0)]
           (always (inl (Exn "ConnectionError" "Not connected")))
           (Exn "ConnectionError" "Not connected") (always_raises _))) _).
  reflexivity.
Defined.

Lemma list_saves_success_text_witness :
  outcome (handle_s1_list_saves [] (always (inr (success save_listing))))
    = inr [text_block
             (String.concat nl
                ["Found 2 save game(s):";
                 "";
                 "{";
                 "  " +:+ q +:+ "saves" +:+ q +:+ ": [";
                 "    {";
                 "      " +:+ q +:+ "slot" +:+ q +:+ ": 0,";
                 "      " +:+ q +:+ "name" +:+ q +:+ ": "
                   +:+ q +:+ "Caf\u00e9" +:+ q +:+ ",";
                 "      " +:+ q +:+ "playtime" +:+ q +:+ ": -1,";
                 "      " +:+ q +:+ "tags" +:+ q +:+ ": [],";
                 "      " +:+ q +:+ "meta" +:+ q +:+ ": {},";
                 "      " +:+ q +:+ "active" +:+ q +:+ ": true,";
                 "      " +:+ q +:+ "mod" +:+ q +:+ ": null";
                 "    },";
                 "    {";
                 "      " +:+ q +:+ "slot" +:+ q +:+ ": 1,";
                 "      " +:+ q +:+ "name" +:+ q +:+ ": "
                   +:+ q +:+ "Town" +:+ q;
                 "    }";
                 "  ],";
                 "  " +:+ q +:+ "count" +:+ q +:+ ": 2";
                 "}"])]
  ∧ outcome (handle_s1_list_saves [] (always (inr (success uncounted_saves))))
    = inr [text_block
             (String.concat nl
                ["Found 0 save game(s):";
                 "";
                 "{";
                 "  " +:+ q +:+ "saves" +:+ q +:+ ": [";
                 "    " +:+ q +:+ "Farm" +:+ q;
                 "  ]";
                 "}"])]
  ∧ outcome (handle_s1_list_saves []
               (always (inr (success (VDict [("status", VStr "ok")])))))
    = inr [text_block
             (String.concat nl
                ["{";
                 "  " +:+ q +:+ "status" +:+ q +:+ ": " +:+ q +:+ "ok" +:+ q;
                 "}"])]
  ∧ outcome (handle_s1_list_saves []
               (always (inr (success (VList [VInt 1; VBool false])))))
    = inr [text_block (String.concat nl ["["; "  1,"; "  false"; "]"])].
Proof.
  split; [|split; [|split]].
  - refine (proj1 (list_saves_success_text [] _ save_listing
                     (always_returns (success save_listing))) _ eq_refl _).
    reflexivity.
  - refine (proj1 (list_saves_success_text [] _ uncounted_saves
                     (always_returns (success uncounted_saves))) _ eq_refl _).
    reflexivity.
  - refine (proj2 (list_saves_success_text [] _ (VDict [("status", VStr "ok")])
                     (always_returns _)) _).
    intros d Hd. injection Hd as <-. reflexivity.
  - refine (proj2 (list_saves_success_text [] _ (VList [VInt 1; VBool false])
                     (always_returns _)) _).
    intros d Hd. discriminate Hd.
Defined.

(** C5 fails as stated: the [returned_to_menu] field of this result is
    not [true], it is the string [no], and the note is appended. *)
Lemma load_save_note_counterexample :
  dict_get menu_as_text "returned_to_menu" ≠ Some (VBool true)
  ∧ outcome (handle_s1_load_save [("slot_index", VInt 2)]
               (always (inr (success (VDict menu_as_text)))))
    = inr [text_block
             ("✓ Loaded slot 2" +:+ nl
              +:+ "  Note: Game was returned to menu before loading the save.")].
Proof. split; [discriminate|reflexivity]. Qed.

Lemma load_save_success_text_witness :
  slot_given [("slot_index", VInt 2)]
  ∧ outcome (handle_s1_load_save [("slot_index", VInt 2)]
               (always (inr (success (VDict menu_as_text)))))
    = inr [text_block
             ("✓ Loaded slot 2" +:+ nl
              +:+ "  Note: Game was returned to menu before loading the save.")].
Proof.
  split; [reflexivity|].
  refine (proj1 (load_save_success_text [("slot_index", VInt 2)]
           (always (inr (success (VDict menu_as_text))))
           (VDict menu_as_text) _ (always_returns _)) menu_as_text eq_refl).
  reflexivity.
Defined.

(** C7 fails as stated.  A [warning] and a [timestamp] that are present
    but empty are not rendered: the report starts with the summary and
    the line has no bracketed timestamp.  And a mapping whose [lines] or
    [filters_applied] cannot be measured or walked through gets no
    report, only the text of the exception. *)
Lemma capture_logs_report_counterexample :
  (dict_get empty_fields "warning" = Some (VStr "")
   ∧ outcome (handle_s1_capture_logs []
                (always (inr (success (VDict empty_fields)))))
     = inr [text_block
              (String.concat nl
                 ["📊 Log Summary:";
                  "  • Total lines in file: 120";
                  "  • Lines after filtering: 1";
                  "  • Lines returned: 1";
                  nl +:+ "📝 Log Lines:" +:+ nl;
                  "[Line 7] Game started"])])
  ∧ outcome (handle_s1_capture_logs []
               (always (inr (success (VDict null_lines)))))
    = inr [text_block "Error: object of type 'NoneType' has no len()"]
  ∧ outcome (handle_s1_capture_logs []
               (always (inr (success (VDict numeric_filters)))))
    = inr [text_block "Error: 'int' object is not iterable"].
Proof. repeat split. Qed.

Lemma capture_logs_report_witness :
  applied_filters two_lines = Some [VStr "keyword: error"]
  ∧ returned_lines two_lines
    = Some [[("line_number", VInt 7); ("timestamp", VStr "12:30:45");
             ("content", VStr "error: no save")];
            [("line_number", VInt 9); ("timestamp", VStr "");
             ("content", VStr "error again")]]
  ∧ outcome (handle_s1_capture_logs [("keyword", VStr "error")]
               (always (inr (success (VDict two_lines)))))
    = inr [text_block
             (String.concat nl
                ["⚠️ Warning: log truncated" +:+ nl;
                 "📊 Log Summary:";
                 "  • Total lines in file: 120";
                 "  • Lines after filtering: 2";
                 "  • Lines returned: 2";
                 nl +:+ "🔍 Filters Applied:";
                 "  • keyword: error";
                 nl +:+ "📝 Log Lines:" +:+ nl;
                 "[Line 7] [12:30:45] error: no save";
                 "[Line 9] error again"])].
Proof.
  split; [reflexivity|]. split; [reflexivity|].
  apply (capture_logs_report [("keyword", VStr "error")]
           (always (inr (success (VDict two_lines)))) two_lines
           [VStr "keyword: error"]
           [[("line_number", VInt 7); ("timestamp", VStr "12:30:45");
             ("content", VStr "error: no save")];
            [("line_number", VInt 9); ("timestamp", VStr "");
             ("content", VStr "error again")]]).
  - apply always_returns.
  - reflexivity.
  - reflexivity.
Defined.

Lemma load_save_ignores_success_field_witness :
  outcome (handle_s1_load_save [("slot_index", VInt 1)]
             (always (inr (success (VDict [("success", VBool false);
                                           ("message", VStr "Loaded")])))))
  = outcome (handle_s1_load_save [("slot_index", VInt 1)]
               (always (inr (success (VDict [("message", VStr "Loaded")]))))).
Proof.
  apply (load_save_ignores_success_field [("slot_index", VInt 1)]
           (always (inr (success (VDict [("success", VBool false);
                                         ("message", VStr "Loaded")]))))
           (always (inr (success (VDict [("message", VStr "Loaded")]))))
           [("success", VBool false); ("message", VStr "Loaded")]
           [("message", VStr "Loaded")]).
  - apply always_returns.
  - apply always_returns.
  - intros k Hk. cbn [dict_get].
    destruct (String.eqb_spec "success" k) as [Heq|_]; [|reflexivity].
    destruct (Hk (eq_sym Heq)).
Defined.


Lemma capture_logs_unsized_lines_witness :
  dict_get null_lines "lines" = Some VNone
  ∧ sized (VNone : value CPython.runtime) = false
  ∧ outcome (handle_s1_capture_logs []
               (always (inr (success (VDict null_lines)))))
    = inr [text_block "Error: object of type 'NoneType' has no len()"]
  ∧ log_messages ERROR
      (trace (handle_s1_capture_logs []
                (always (inr (success (VDict null_lines))))))
    = ["Error in s1_capture_logs: object of type 'NoneType' has no len()"].
Proof.
  split; [reflexivity|]. split; [reflexivity|].
  exact (capture_logs_unsized_lines [] _ null_lines VNone
           (always_returns _) eq_refl eq_refl).
Defined.

Lemma capture_logs_rejects_non_mapping_line_witness :
  applied_filters raw_line = Some [VStr "keyword: boot"]
  ∧ is_dict (VStr "raw text" : value CPython.runtime) = false
  ∧ outcome (handle_s1_capture_logs []
               (always (inr (success (VDict raw_line)))))
    = inr [text_block "Error: 'str' object has no attribute 'get'"]
  ∧ log_messages ERROR
      (trace (handle_s1_capture_logs []
                (always (inr (success (VDict raw_line))))))
    = ["Error in s1_capture_logs: 'str' object has no attribute 'get'"].
Proof.
  split; [reflexivity|]. split; [reflexivity|].
  exact (capture_logs_rejects_non_mapping_line [] _ raw_line
           [VStr "keyword: boot"]
           [[("line_number", VInt 1); ("content", VStr "boot")]]
           (VStr "raw text") []
           (always_returns _) eq_refl eq_refl eq_refl).
Defined.

Lemma load_save_reads_two_fields_witness :
  outcome (handle_s1_load_save [("slot_index", VInt 1)]
             (always (inr (success (VDict [("message", VStr "Loaded");
                                           ("returned_to_menu", VInt 1)])))))
  = outcome (handle_s1_load_save [("slot_index", VInt 1)]
               (always (inr (success (VDict [("returned_to_menu", VBool true);
                                             ("slot", VInt 1);
                                             ("message", VStr "Loaded")]))))).
Proof.
  exact (load_save_reads_two_fields [("slot_index", VInt 1)] _ _
           [("message", VStr "Loaded"); ("returned_to_menu", VInt 1)]
           [("returned_to_menu", VBool true); ("slot", VInt 1);
            ("message", VStr "Loaded")]
           (always_returns _) (always_returns _) eq_refl eq_refl).
Defined.

Lemma capture_logs_reads_seven_keys_witness :
  handle_s1_capture_logs verbose_arguments (always (inr (success VNone)))
  = handle_s1_capture_logs [("keyword", VStr "error")]
      (always (inr (success VNone))).
Proof.
  apply (capture_logs_reads_seven_keys verbose_arguments
           [("keyword", VStr "error")]).
  intros k Hk.
  repeat (apply elem_of_cons in Hk as [->|Hk]; [reflexivity|]).
  destruct (not_elem_of_nil k Hk).
Defined.

Lemma capture_logs_forwards_declared_witness :
  ∃ tool, tool ∈ get_log_tools (always (inr (success VNone)))
  ∧ ∃ params,
      rpc_calls (trace (handle_s1_capture_logs verbose_arguments
                          (always (inr (success VNone)))))
        = [("capture_logs", params)]
      ∧ (∀ k, dict_get params k =
                if bool_decide (k ∈ schema_properties (inputSchema tool))
                then dict_get verbose_arguments k else None)
      ∧ params.*1 = filter (λ k, is_Some (dict_get verbose_arguments k))
                      (schema_properties (inputSchema tool)).
Proof.
  eexists. split; [apply list_elem_of_here|].
  apply (capture_logs_forwards_declared verbose_arguments).
  apply list_elem_of_here.
Defined.

Lemma handlers_enforce_required_witness :
  ∃ tool,
    tool ∈ get_load_manager_tools (always (inr (success VNone)))
             ++ get_log_tools (always (inr (success VNone)))
    ∧ (name tool, handle_s1_load_save)
        ∈ LoadManagerTools.TOOL_HANDLERS ++ LogTools.TOOL_HANDLERS
    ∧ (rpc_calls (trace (handle_s1_load_save [("slot", VInt 1)]
                           (always (inr (success VNone))))) = []
       ↔ ∃ k, k ∈ schema_required (inputSchema tool)
              ∧ supplied ([("slot", VInt 1)] : dict CPython.runtime) k = false).
Proof.
  eexists.
  split; [apply list_elem_of_further, list_elem_of_here|].
  split; [apply list_elem_of_further, list_elem_of_here|].
  apply (handlers_enforce_required [("slot", VInt 1)]
           (always (inr (success VNone)))).
  - apply list_elem_of_further, list_elem_of_here.
  - apply list_elem_of_further, list_elem_of_here.
Defined.

Lemma capture_logs_report_any_filters_witness :
  loop_items (get text_filters "filters_applied" (VList []))
    = Some [VStr "a"; VStr "b"]
  ∧ returned_lines text_filters = Some []
  ∧ outcome (handle_s1_capture_logs []
               (always (inr (success (VDict text_filters)))))
    = inr [text_block
             (String.concat nl
                ["📊 Log Summary:";
                 "  • Total lines in file: 0";
                 "  • Lines after filtering: 0";
                 "  • Lines returned: 0";
                 nl +:+ "🔍 Filters Applied:";
                 "  • a";
                 "  • b";
                 nl +:+ "(No log lines matched the filters)"])].
Proof.
  split; [reflexivity|]. split; [reflexivity|].
  exact (capture_logs_report_any_filters [] _ text_filters
           [VStr "a"; VStr "b"] [] (always_returns _) eq_refl eq_refl).
Defined.

Lemma capture_logs_rejects_scalar_filters_witness :
  sized (get numeric_filters "lines" (VList [])) = true
  ∧ dict_get numeric_filters "filters_applied" = Some (VInt 3)
  ∧ loop_items (VInt 3 : value CPython.runtime) = None
  ∧ outcome (handle_s1_capture_logs []
               (always (inr (success (VDict numeric_filters)))))
    = inr [text_block "Error: 'int' object is not iterable"]
  ∧ log_messages ERROR
      (trace (handle_s1_capture_logs []
                (always (inr (success (VDict numeric_filters))))))
    = ["Error in s1_capture_logs: 'int' object is not iterable"].
Proof.
  split; [reflexivity|]. split; [reflexivity|]. split; [reflexivity|].
  exact (capture_logs_rejects_scalar_filters [] _ numeric_filters (VInt 3)
           (always_returns _) eq_refl eq_refl eq_refl).
Defined.

End Instances.
